(** * Payment-request form: amount transcription and field cascade rules

    A shallow embedding of [src/src/App.tsx] and of the data declarations of
    [src/components/PaymentForm.tsx]:

    - [digitUppercase], the number to Chinese financial characters helper,
      over IEEE 754 binary64 numbers and UTF-16 strings, with the regular
      expressions of the source kept as syntax and run by a backtracking
      matcher;
    - [applyFieldChange] and [applySelectPayee], the record updates made by
      [handleFormChange] and [handlePayeeSelect];
    - [checkAndSavePayee], the lookup-table insertion, with its two calls
      at the start of [handleGenerateImage] ([savePayees]) and the file name
      of the export ([downloadName]);
    - [copyToSecond];
    - the payee dropdown of [PaymentForm]: [handlePayeeChange],
      [handlePayeeFocus], [handleOptionClick], over any case mapping.

    The current date ([new Date()]) is an explicit argument. *)

From Stdlib Require Import ZArith NArith List Bool String Ascii Lia.
From Stdlib Require Import SpecFloat DecimalString.
Import ListNotations.

(* ================================================================= *)
(** ** JavaScript strings: sequences of UTF-16 code units *)

Module Str.

Definition char := N.
Definition jsstring := list char.

Definition eqb (a b : jsstring) : bool :=
  if list_eq_dec N.eq_dec a b then true else false.

(** Truthiness of a string value: [''] is the only falsy string. *)
Definition isEmpty (s : jsstring) : bool :=
  match s with [] => true | _ :: _ => false end.

Definition truthy (s : jsstring) : bool := negb (isEmpty s).

(** Source text is UTF-8; [utf16] decodes a literal into the code units the
    JavaScript engine holds (a surrogate pair above the basic plane). *)
Definition cont_bits (a : ascii) : N := N.land (N_of_ascii a) 63.

Definition of_code_point (cp : N) : jsstring :=
  if (cp <? 65536)%N then [cp]
  else let v := (cp - 65536)%N in
       [(55296 + N.shiftr v 10)%N; (56320 + N.land v 1023)%N].

Fixpoint utf16 (s : string) : jsstring :=
  match s with
  | EmptyString => []
  | String a rest =>
    let b := N_of_ascii a in
    if (b <? 128)%N then b :: utf16 rest
    else if (b <? 224)%N then
      match rest with
      | String a1 rest1 =>
          (N.shiftl (N.land b 31) 6 + cont_bits a1)%N :: utf16 rest1
      | _ => [65533%N]
      end
    else if (b <? 240)%N then
      match rest with
      | String a1 (String a2 rest2) =>
          (N.shiftl (N.land b 15) 12 + N.shiftl (cont_bits a1) 6
           + cont_bits a2)%N :: utf16 rest2
      | _ => [65533%N]
      end
    else
      match rest with
      | String a1 (String a2 (String a3 rest3)) =>
          of_code_point
            (N.shiftl (N.land b 7) 18 + N.shiftl (cont_bits a1) 12
             + N.shiftl (cont_bits a2) 6 + cont_bits a3)%N ++ utf16 rest3
      | _ => [65533%N]
      end
  end.

(** [LineTerminator]: LF, CR, LS, PS. *)
Definition isLineTerminator (c : char) : bool :=
  (c =? 10)%N || (c =? 13)%N || (c =? 8232)%N || (c =? 8233)%N.

(** [WhiteSpace] and [LineTerminator], the characters [trim] strips and the
    numeric parsers skip. *)
Definition isWhiteSpace (c : char) : bool :=
  (c =? 9)%N || (c =? 11)%N || (c =? 12)%N || (c =? 32)%N || (c =? 160)%N
  || (c =? 5760)%N || ((8192 <=? c)%N && (c <=? 8202)%N)
  || (c =? 8239)%N || (c =? 8287)%N || (c =? 12288)%N || (c =? 65279)%N
  || isLineTerminator c.

Fixpoint trimStart (s : jsstring) : jsstring :=
  match s with
  | c :: rest => if isWhiteSpace c then trimStart rest else s
  | [] => []
  end.

Definition trimEnd (s : jsstring) : jsstring := rev (trimStart (rev s)).

(** [String.prototype.trim] *)
Definition trim (s : jsstring) : jsstring := trimEnd (trimStart s).

(** A value read out of an array: a string, or [undefined] when the index
    names no element. *)
Definition value := option jsstring.

(** [ToString] as applied by [+] with a string operand. *)
Definition ToString (v : value) : jsstring :=
  match v with
  | Some s => s
  | None => utf16 "undefined"
  end.

End Str.

Import Str.

(* ================================================================= *)
(** ** Regular expressions *)

Module RegExp.

(** The fragment used by the source: literal characters, [.], [^], [$],
    concatenation and the greedy quantifiers.  Groups capture nothing that is
    read back (no replacement text holds a [$]), so a group is its body. *)
Inductive regex : Type :=
| Chr (c : char)
| Dot
| Bol
| Eol
| Cat (r1 r2 : regex)
| Star (r : regex)
| Plus (r : regex).

(** A continuation receives the position reached and the input left, and
    answers with the end of the whole match. *)
Definition cont := nat -> jsstring -> option nat.
Definition matcher := nat -> jsstring -> cont -> option nat.

(** Greedy repetition: one more iteration is tried first, and an iteration
    that consumes nothing is rejected.  Every accepted iteration consumes a
    character, so the length of the input bounds the number of iterations. *)
Fixpoint repeat_greedy (m : matcher) (fuel : nat) (i : nat) (s : jsstring)
         (k : cont) : option nat :=
  match fuel with
  | O => k i s
  | S fuel' =>
    match m i s (fun j t => if Nat.eqb j i then None
                            else repeat_greedy m fuel' j t k) with
    | Some e => Some e
    | None => k i s
    end
  end.

Fixpoint rmatch (r : regex) (i : nat) (s : jsstring) (k : cont) : option nat :=
  match r with
  | Chr c =>
    match s with
    | x :: s' => if N.eqb x c then k (S i) s' else None
    | [] => None
    end
  | Dot =>
    match s with
    | x :: s' => if isLineTerminator x then None else k (S i) s'
    | [] => None
    end
  | Bol => if Nat.eqb i 0 then k i s else None
  | Eol => match s with [] => k i s | _ :: _ => None end
  | Cat r1 r2 => rmatch r1 i s (fun j t => rmatch r2 j t k)
  | Star r1 => repeat_greedy (rmatch r1) (List.length s) i s k
  | Plus r1 =>
    rmatch r1 i s (fun j t => repeat_greedy (rmatch r1) (List.length t) j t k)
  end.

(** Leftmost match at or after position [i]; [s] is the input from [i] on. *)
Fixpoint search (r : regex) (i : nat) (s : jsstring) : option (nat * nat) :=
  match rmatch r i s (fun j _ => Some j) with
  | Some e => Some (i, e)
  | None =>
    match s with
    | [] => None
    | _ :: s' => search r (S i) s'
    end
  end.

(** [s.replace(r, rep)] for a regex without the [g] flag. *)
Definition replace (r : regex) (rep : jsstring) (s : jsstring) : jsstring :=
  match search r 0 s with
  | Some (b, e) => firstn b s ++ rep ++ skipn e s
  | None => s
  end.

(** [s.replace(r, rep)] for a regex with the [g] flag: matches are taken left
    to right, the search resuming where the last match ended (one character
    further after an empty match). *)
Fixpoint replace_from (fuel : nat) (r : regex) (rep : jsstring) (i : nat)
         (s : jsstring) : jsstring :=
  match fuel with
  | O => s
  | S fuel' =>
    match search r i s with
    | None => s
    | Some (b, e) =>
      firstn (b - i) s ++ rep ++
      (if Nat.eqb e b then
         match skipn (b - i) s with
         | [] => []
         | c :: t => c :: replace_from fuel' r rep (S e) t
         end
       else replace_from fuel' r rep e (skipn (e - i) s))
    end
  end.

Definition replaceAll (r : regex) (rep : jsstring) (s : jsstring) : jsstring :=
  replace_from (S (List.length s)) r rep 0 s.

(** Two continuations that agree wherever a match from position [i] on
    input [s] can end. *)
Definition agree (i : nat) (s : jsstring) (k k' : cont) : Prop :=
  forall d, d <= List.length s ->
            k (i + d) (skipn d s) = k' (i + d) (skipn d s).

End RegExp.

Import RegExp.

(* ================================================================= *)
(** ** JavaScript numbers: IEEE 754 binary64 *)

Module Num.

Local Open Scope Z_scope.

Definition prec : Z := 53.
Definition emax : Z := 1024.

Definition number := spec_float.

Definition NaN : number := S754_nan.

(** An integer as a number, rounded to nearest even (exact below 2^53). *)
Definition of_Z (z : Z) : number := binary_normalize prec emax z 0 false.

(** The number nearest to [n / d], for [n >= 0] and [d > 0]: the value of a
    decimal literal is rounded once, from its exact value. *)
Definition of_ratio (sign : bool) (n d : Z) : number :=
  match n with
  | Z0 => S754_zero sign
  | _ =>
    let '(q, e, l) := SFdiv_core_binary prec emax n 0 d 0 in
    binary_round_aux prec emax sign q e l
  end.

(** The number written [m]e[k] in decimal. *)
Definition of_decimal (sign : bool) (m : Z) (k : Z) : number :=
  if 0 <=? k then of_ratio sign (m * 10 ^ k) 1
  else of_ratio sign m (10 ^ (- k)).

Definition mul : number -> number -> number := SFmul prec emax.
Definition div : number -> number -> number := SFdiv prec emax.

(** [Math.abs] *)
Definition Math_abs : number -> number := SFabs.

(** [isNaN] on a number *)
Definition isNaN (x : number) : bool :=
  match x with S754_nan => true | _ => false end.

(** [x > y]; false as soon as one side is NaN. *)
Definition gt (x y : number) : bool := SFltb y x.

(** [Math.floor]: the result is an integer of at most 53 bits, or [x] itself
    when [x] has no fractional bits. *)
Definition Math_floor (x : number) : number :=
  match x with
  | S754_finite s m e =>
    if 0 <=? e then x
    else
      let z := Z.shiftr (cond_Zopp s (Zpos m)) (- e) in
      if z =? 0 then S754_zero s else of_Z z
  | _ => x
  end.

(** [x % y]: the remainder of the truncating division, with the sign of the
    dividend; it is always representable, so nothing is rounded. *)
Definition rem (x y : number) : number :=
  match x, y with
  | S754_nan, _ | _, S754_nan => S754_nan
  | S754_infinity _, _ => S754_nan
  | _, S754_zero _ => S754_nan
  | S754_zero _, _ => x
  | S754_finite _ _ _, S754_infinity _ => x
  | S754_finite sx mx ex, S754_finite _ my ey =>
    let e := Z.min ex ey in
    let r := Z.rem (Zpos mx * 2 ^ (ex - e)) (Zpos my * 2 ^ (ey - e)) in
    binary_normalize prec emax (cond_Zopp sx r) e sx
  end.

(** [Math.pow(10, i)] for the small natural exponents of the source, where
    the power is an integer below 2^53 and so exact. *)
Definition Math_pow10 (i : nat) : number := of_Z (10 ^ Z.of_nat i).

(** The array index a number names as a property key: an integer value
    (either zero included), nothing otherwise. *)
Definition to_index (x : number) : option Z :=
  match x with
  | S754_zero _ => Some 0
  | S754_finite false m e =>
    if 0 <=? e then Some (Zpos m * 2 ^ e)
    else if Zpos m mod 2 ^ (- e) =? 0 then Some (Zpos m / 2 ^ (- e))
    else None
  | _ => None
  end.

(** [a[x]] on an array of strings. *)
Definition array_get (a : list jsstring) (x : number) : value :=
  match to_index x with
  | Some z => if z <? Z.of_nat (List.length a) then nth_error a (Z.to_nat z)
              else None
  | None => None
  end.

(** [n.toString()] for an integer [n] (a calendar field). *)
Definition Z_toString (z : Z) : jsstring :=
  utf16 (NilZero.string_of_int (Z.to_int z)).

End Num.

Import Num.

(* ================================================================= *)
(** ** Numeric parsing: [Number(string)] and [parseFloat] *)

Module Parse.

Local Open Scope Z_scope.

Definition digit_of (c : char) : option Z :=
  if ((48 <=? c) && (c <=? 57))%N then Some (Z.of_N c - 48) else None.

(** Reads decimal digits: the accumulated value, how many were read, and the
    rest of the input. *)
Fixpoint digits (acc : Z) (n : Z) (s : jsstring) : Z * Z * jsstring :=
  match s with
  | c :: rest =>
    match digit_of c with
    | Some d => digits (10 * acc + d) (n + 1) rest
    | None => (acc, n, s)
    end
  | [] => (acc, n, s)
  end.

Definition c_plus : char := 43%N.
Definition c_minus : char := 45%N.
Definition c_dot : char := 46%N.

(** [ExponentPart]: [e] or [E], an optional sign and at least one digit; when
    it is not there the input is left as it is. *)
Definition exponent (s : jsstring) : Z * jsstring :=
  match s with
  | c :: rest =>
    if ((c =? 101) || (c =? 69))%N then
      let '(sg, rest') :=
        match rest with
        | x :: t => if (x =? c_plus)%N then (1, t)
                    else if (x =? c_minus)%N then (-1, t)
                    else (1, rest)
        | [] => (1, rest)
        end in
      let '(v, n, rest'') := digits 0 0 rest' in
      if n =? 0 then (0, s) else (sg * v, rest'')
    else (0, s)
  | [] => (0, s)
  end.

Fixpoint strip_prefix (p s : jsstring) : option jsstring :=
  match p, s with
  | [], _ => Some s
  | a :: p', b :: s' => if (a =? b)%N then strip_prefix p' s' else None
  | _ :: _, [] => None
  end.

(** The longest prefix that is a [StrUnsignedDecimalLiteral], as a number of
    the given sign, with the input after it. *)
Definition unsigned_decimal (sign : bool) (s : jsstring)
  : option (number * jsstring) :=
  match strip_prefix (utf16 "Infinity") s with
  | Some rest => Some (S754_infinity sign, rest)
  | None =>
    let '(ip, ni, s1) := digits 0 0 s in
    let '(m, nf, s2) :=
      match s1 with
      | c :: t =>
        if (c =? c_dot)%N then
          let '(m, nf, t') := digits ip 0 t in
          if (ni =? 0) && (nf =? 0) then (ip, 0, s1) else (m, nf, t')
        else (ip, 0, s1)
      | [] => (ip, 0, s1)
      end in
    if (ni =? 0) && (nf =? 0) then None
    else
      let '(ex, s3) := exponent s2 in
      Some (of_decimal sign m (ex - nf), s3)
  end.

(** The longest prefix that is a [StrDecimalLiteral]. *)
Definition decimal_literal (s : jsstring) : option (number * jsstring) :=
  match s with
  | c :: rest =>
    if (c =? c_plus)%N then unsigned_decimal false rest
    else if (c =? c_minus)%N then unsigned_decimal true rest
    else unsigned_decimal false s
  | [] => None
  end.

(** [parseFloat]: leading white space is skipped, what follows the literal is
    ignored. *)
Definition parseFloat (s : jsstring) : number :=
  match decimal_literal (trimStart s) with
  | Some (x, _) => x
  | None => NaN
  end.

Definition radix_digit (radix : Z) (c : char) : option Z :=
  let v :=
    if ((48 <=? c) && (c <=? 57))%N then Z.of_N c - 48
    else if ((97 <=? c) && (c <=? 102))%N then Z.of_N c - 87
    else if ((65 <=? c) && (c <=? 70))%N then Z.of_N c - 55
    else radix in
  if v <? radix then Some v else None.

Fixpoint radix_digits (radix : Z) (acc : Z) (s : jsstring) : option Z :=
  match s with
  | [] => Some acc
  | c :: rest =>
    match radix_digit radix c with
    | Some d => radix_digits radix (radix * acc + d) rest
    | None => None
    end
  end.

(** [NonDecimalIntegerLiteral]: [0x], [0o] or [0b] and at least one digit. *)
Definition non_decimal (s : jsstring) : option number :=
  match s with
  | 48%N :: p :: ((_ :: _) as ds) =>
    let radix :=
      if ((p =? 120) || (p =? 88))%N then 16
      else if ((p =? 111) || (p =? 79))%N then 8
      else if ((p =? 98) || (p =? 66))%N then 2
      else 0 in
    if radix =? 0 then None
    else option_map of_Z (radix_digits radix 0 ds)
  | _ => None
  end.

(** [StringToNumber]: white space is trimmed at both ends, the empty text is
    [+0], and the text must be one numeric literal as a whole. *)
Definition StringToNumber (s : jsstring) : number :=
  let t := trim s in
  if isEmpty t then S754_zero false
  else
    match non_decimal t with
    | Some x => x
    | None =>
      match decimal_literal t with
      | Some (x, []) => x
      | _ => NaN
      end
    end.

End Parse.

Import Parse.

(* ================================================================= *)
(** ** [digitUppercase]: a number in Chinese financial characters *)

(** The argument of [digitUppercase], of type [string | number]. *)
Inductive arg : Type :=
| ANum (x : number)
| AStr (s : jsstring).

(** [Number(n)] *)
Definition Number (n : arg) : number :=
  match n with
  | ANum x => x
  | AStr s => StringToNumber s
  end.

Definition ling : char := 38646%N.   (* 零 *)

Definition fraction : list jsstring := [utf16 "角"; utf16 "分"].
Definition digit : list jsstring :=
  [utf16 "零"; utf16 "壹"; utf16 "贰"; utf16 "叁"; utf16 "肆";
   utf16 "伍"; utf16 "陆"; utf16 "柒"; utf16 "捌"; utf16 "玖"].
Definition unit0 : list jsstring := [utf16 "元"; utf16 "万"; utf16 "亿"].
Definition unit1 : list jsstring := [utf16 ""; utf16 "拾"; utf16 "佰"; utf16 "仟"].

Definition ten : number := of_Z 10.
Definition zero : number := of_Z 0.

(** [/零./] *)
Definition re_zero_any : regex := Cat (Chr ling) Dot.
(** [/(零.)*零$/] *)
Definition re_zeros_end : regex :=
  Cat (Star (Cat (Chr ling) Dot)) (Cat (Chr ling) Eol).
(** [/^$/] *)
Definition re_empty : regex := Cat Bol Eol.
(** [/(零.)*零元/] *)
Definition re_zeros_yuan : regex :=
  Cat (Star (Cat (Chr ling) Dot)) (Cat (Chr ling) (Chr 20803%N)).
(** [/(零.)+/g] *)
Definition re_zero_run : regex := Plus (Cat (Chr ling) Dot).
(** [/^整$/] *)
Definition re_whole : regex := Cat Bol (Cat (Chr 25972%N) Eol).

(** The loop over the decimal part, [i] running over the indices of
    [fraction]; [fs] holds the entries from [i] on. *)
Fixpoint decimal_part (num : number) (i : nat) (fs : list jsstring)
         (s : jsstring) : jsstring :=
  match fs with
  | [] => s
  | f :: fs' =>
    let d := array_get digit
               (rem (Math_floor (mul (mul num ten) (Math_pow10 i))) ten) in
    decimal_part num (S i) fs' (s ++ replace re_zero_any [] (ToString d ++ f))
  end.

(** The inner loop of the integer part, over the entries of [unit[1]] not
    yet visited: four digits at most, while [num > 0]. *)
Fixpoint group_loop (us : list jsstring) (num : number) (p : jsstring)
  : number * jsstring :=
  match us with
  | [] => (num, p)
  | u :: us' =>
    if gt num zero then
      group_loop us' (Math_floor (div num ten))
                 (ToString (array_get digit (rem num ten)) ++ u ++ p)
    else (num, p)
  end.

(** The outer loop, over the entries of [unit[0]] not yet visited. *)
Fixpoint integer_part (gs : list jsstring) (num : number) (s : jsstring)
  : jsstring :=
  match gs with
  | [] => s
  | g :: gs' =>
    if gt num zero then
      let '(num', p) := group_loop unit1 num [] in
      integer_part gs' num'
        (replace re_empty (utf16 "零") (replace re_zeros_end [] p) ++ g ++ s)
    else s
  end.

Definition digitUppercase (n : arg) : jsstring :=
  let num := Math_abs (Number n) in
  let s := decimal_part num 0 fraction [] in
  let s := if isEmpty s then utf16 "整" else s in
  let num := Math_floor num in
  let s := integer_part unit0 num s in
  replace re_whole (utf16 "零元整")
    (replaceAll re_zero_run (utf16 "零")
       (replace re_zeros_yuan (utf16 "元") s)).

(* ================================================================= *)
(** ** The form record and the payee lookup entry *)

(** [keyof PaymentFormData] *)
Module Key.

Inductive t : Type :=
| dept
| year
| month
| day
| serial
| payee
| bankAccount
| bankName
| amountChinese
| reason
| attachments
| amountNumeric
| leader
| financeManager
| deptManager
| operator
| accountant
| bookkeeper
| reviewer
| cashier
| maker
| receiver.

Definition eq_dec (a b : t) : {a = b} + {a <> b}.
Proof. decide equality. Defined.

Definition eqb (a b : t) : bool := if eq_dec a b then true else false.

End Key.

Record PaymentFormData : Type := {
  dept : jsstring;
  year : jsstring;
  month : jsstring;
  day : jsstring;
  serial : jsstring;
  payee : jsstring;
  bankAccount : jsstring;
  bankName : jsstring;
  amountChinese : jsstring;
  reason : jsstring;
  attachments : jsstring;
  amountNumeric : jsstring;
  leader : jsstring;
  financeManager : jsstring;
  deptManager : jsstring;
  operator : jsstring;
  accountant : jsstring;
  bookkeeper : jsstring;
  reviewer : jsstring;
  cashier : jsstring;
  maker : jsstring;
  receiver : jsstring
}.

(** [r[k]] *)
Definition get (r : PaymentFormData) (k : Key.t) : jsstring :=
  match k with
  | Key.dept => dept r
  | Key.year => year r
  | Key.month => month r
  | Key.day => day r
  | Key.serial => serial r
  | Key.payee => payee r
  | Key.bankAccount => bankAccount r
  | Key.bankName => bankName r
  | Key.amountChinese => amountChinese r
  | Key.reason => reason r
  | Key.attachments => attachments r
  | Key.amountNumeric => amountNumeric r
  | Key.leader => leader r
  | Key.financeManager => financeManager r
  | Key.deptManager => deptManager r
  | Key.operator => operator r
  | Key.accountant => accountant r
  | Key.bookkeeper => bookkeeper r
  | Key.reviewer => reviewer r
  | Key.cashier => cashier r
  | Key.maker => maker r
  | Key.receiver => receiver r
  end.

(** The object with the given value under each key. *)
Definition tabulate (f : Key.t -> jsstring) : PaymentFormData :=
  {| dept := f Key.dept;
     year := f Key.year;
     month := f Key.month;
     day := f Key.day;
     serial := f Key.serial;
     payee := f Key.payee;
     bankAccount := f Key.bankAccount;
     bankName := f Key.bankName;
     amountChinese := f Key.amountChinese;
     reason := f Key.reason;
     attachments := f Key.attachments;
     amountNumeric := f Key.amountNumeric;
     leader := f Key.leader;
     financeManager := f Key.financeManager;
     deptManager := f Key.deptManager;
     operator := f Key.operator;
     accountant := f Key.accountant;
     bookkeeper := f Key.bookkeeper;
     reviewer := f Key.reviewer;
     cashier := f Key.cashier;
     maker := f Key.maker;
     receiver := f Key.receiver |}.

(** [{ ...r, [k]: v }], and [r.k = v] on a fresh copy. *)
Definition set (k : Key.t) (v : jsstring) (r : PaymentFormData)
  : PaymentFormData :=
  tabulate (fun k' => if Key.eqb k' k then v else get r k').

Definition initialFormData : PaymentFormData := tabulate (fun _ => []).

(** [getDefaults()], the record both copies start from. *)
Definition getDefaults : PaymentFormData :=
  set Key.operator (utf16 "王宇俊")
    (set Key.day []
       (set Key.month []
          (set Key.year []
             (set Key.dept (utf16 "精机主轴") initialFormData)))).

Record PayeeInfo : Type := {
  收款单位 : jsstring;
  银行账号 : jsstring;
  开户行 : jsstring
}.

(** What [new Date()] is read for. *)
Record Date : Type := {
  getFullYear : Z;
  getMonth : Z;
  getDate : Z
}.

(** [a || ''] on a string. *)
Definition or_empty (a : jsstring) : jsstring :=
  if truthy a then a else [].

(* ================================================================= *)
(** ** The field cascade: [handleFormChange] and [handlePayeeSelect] *)

(** The record update of [handleFormChange]: [newData] as computed from
    [currentForm], [key] and [value]. *)
Definition applyFieldChange (now : Date) (currentForm : PaymentFormData)
           (key : Key.t) (value : jsstring) : PaymentFormData :=
  let newData := set key value currentForm in
  let newData :=
    if Key.eqb key Key.amountNumeric then
      let numVal := parseFloat value in
      if negb (isNaN numVal) && negb (Str.eqb value []) then
        set Key.amountChinese (digitUppercase (ANum numVal)) newData
      else if Str.eqb value [] then
        set Key.amountChinese [] newData
      else newData
    else newData in
  if Key.eqb key Key.payee then
    if truthy value && negb (Str.eqb (trim value) []) then
      if negb (truthy (year newData)) && negb (truthy (month newData))
         && negb (truthy (day newData)) then
        set Key.day (Z_toString (getDate now))
          (set Key.month (Z_toString (getMonth now + 1))
             (set Key.year (Z_toString (getFullYear now)) newData))
      else newData
    else
      set Key.attachments []
        (set Key.reason []
           (set Key.amountNumeric []
              (set Key.amountChinese []
                 (set Key.day []
                    (set Key.month []
                       (set Key.year []
                          (set Key.bankName []
                             (set Key.bankAccount [] newData))))))))
  else newData.

(** The record update of [handlePayeeSelect]. *)
Definition applySelectPayee (now : Date) (form : PaymentFormData)
           (payee : PayeeInfo) : PaymentFormData :=
  set Key.day (Z_toString (getDate now))
    (set Key.month (Z_toString (getMonth now + 1))
       (set Key.year (Z_toString (getFullYear now))
          (set Key.bankName (or_empty (开户行 payee))
             (set Key.bankAccount (or_empty (银行账号 payee))
                (set Key.payee (or_empty (收款单位 payee)) form))))).

(** The state of the two copies, and the index [0 | 1] into it. *)
Inductive index : Type := I0 | I1.

Definition forms : Type := (PaymentFormData * PaymentFormData)%type.

Definition form_at (i : index) (fs : forms) : PaymentFormData :=
  match i with I0 => fst fs | I1 => snd fs end.

Definition index_eqb (i j : index) : bool :=
  match i, j with I0, I0 | I1, I1 => true | _, _ => false end.

Definition with_form (i : index) (d : PaymentFormData) (fs : forms) : forms :=
  match i with I0 => (d, snd fs) | I1 => (fst fs, d) end.

Definition handleFormChange (now : Date) (i : index) (key : Key.t)
           (value : jsstring) (prev : forms) : forms :=
  with_form i (applyFieldChange now (form_at i prev) key value) prev.

Definition handlePayeeSelect (now : Date) (i : index) (payee : PayeeInfo)
           (prev : forms) : forms :=
  with_form i (applySelectPayee now (form_at i prev) payee) prev.

(* ================================================================= *)
(** ** The payee lookup table: [checkAndSavePayee] *)

(** The table after the call, and the returned flag. *)
Definition checkAndSavePayee (payeeDb : list PayeeInfo)
           (formData : PaymentFormData) : list PayeeInfo * bool :=
  if truthy (payee formData) && truthy (bankAccount formData)
     && truthy (bankName formData) then
    let exists_ :=
      existsb (fun p => Str.eqb (收款单位 p) (payee formData)
                        && Str.eqb (银行账号 p) (bankAccount formData))
              payeeDb in
    if negb exists_ then
      (payeeDb ++ [{| 收款单位 := payee formData;
                      银行账号 := bankAccount formData;
                      开户行 := bankName formData |}], true)
    else (payeeDb, false)
  else (payeeDb, false).

(* ================================================================= *)
(** ** Properties stated by the specification, as predicates *)

(** The characters a transcription is made of. *)
Definition alphabet : list char :=
  List.concat (digit ++ unit0 ++ unit1 ++ fraction ++ [utf16 "整"]).

(** A transcription holds nothing but characters of the transcription
    alphabet: no text of a failed conversion stands in for a digit. *)
Definition well_formed (s : jsstring) : bool :=
  forallb (fun c => existsb (N.eqb c) alphabet) s.

(** The test [handleFormChange] makes before it transcribes the amount in
    digits. *)
Definition validAmount (v : jsstring) : bool :=
  negb (isNaN (parseFloat v)) && negb (Str.eqb v []).

(** Amount in words follows amount in digits. *)
Definition amount_invariant (r : PaymentFormData) : Prop :=
  (validAmount (amountNumeric r) = true ->
   amountChinese r = digitUppercase (ANum (parseFloat (amountNumeric r))))
  /\ (amountNumeric r = [] -> amountChinese r = []).

(** One user action on a record; [editable] tells which fields
    [applyFieldChange] is called on. *)
Inductive step (editable : Key.t -> bool)
  : PaymentFormData -> PaymentFormData -> Prop :=
| step_change (now : Date) (r : PaymentFormData) (k : Key.t) (v : jsstring) :
    editable k = true -> step editable r (applyFieldChange now r k v)
| step_select (now : Date) (r : PaymentFormData) (p : PayeeInfo) :
    step editable r (applySelectPayee now r p).

(** The records reached from the all-empty record. *)
Inductive reachable (editable : Key.t -> bool) : PaymentFormData -> Prop :=
| reach_init : reachable editable initialFormData
| reach_step (r r' : PaymentFormData) :
    reachable editable r -> step editable r r' -> reachable editable r'.

Definition any_field (k : Key.t) : bool := true.
Definition not_words (k : Key.t) : bool := negb (Key.eqb k Key.amountChinese).

(** The date fields of a record. *)
Definition dates (r : PaymentFormData) : jsstring * jsstring * jsstring :=
  (year r, month r, day r).

(** Today, as the three decimal strings written into a record. *)
Definition today (now : Date) : jsstring * jsstring * jsstring :=
  (Z_toString (getFullYear now), Z_toString (getMonth now + 1),
   Z_toString (getDate now)).

Definition blank (v : jsstring) : Prop :=
  Forall (fun c => isWhiteSpace c = true) v.

(** Sample inputs. *)
Definition n1234_56 : number := of_decimal false 123456 (-2).
Definition a_date : Date :=
  {| getFullYear := 2026; getMonth := 10; getDate := 3 |}.
Definition a_payee : PayeeInfo :=
  {| 收款单位 := utf16 "ACME"; 银行账号 := utf16 "6222";
     开户行 := utf16 "ICBC" |}.

(** A record filled from an entry that differs from [a_payee] in the bank
    name only. *)
Definition other_bank : PaymentFormData :=
  applySelectPayee a_date getDefaults
    {| 收款单位 := utf16 "ACME"; 银行账号 := utf16 "6222";
       开户行 := utf16 "BOC" |}.

(** The fields the clearing branch empties. *)
Definition cleared (k : Key.t) : bool :=
  match k with
  | Key.bankAccount | Key.bankName | Key.year | Key.month | Key.day
  | Key.amountChinese | Key.amountNumeric | Key.reason | Key.attachments =>
    true
  | _ => false
  end.

(** Typing 5 into the amount in digits, then a text into the amount in
    words. *)
Definition typed_5 : PaymentFormData :=
  applyFieldChange a_date initialFormData Key.amountNumeric (utf16 "5").
Definition words_edited : PaymentFormData :=
  applyFieldChange a_date typed_5 Key.amountChinese (utf16 "x").
Definition words_only : PaymentFormData :=
  applyFieldChange a_date initialFormData Key.amountChinese (utf16 "x").

(* ================================================================= *)
(** ** The rest of [App]: copying, the export, the file name *)


(** The start of [handleGenerateImage]: [checkAndSavePayee] on each copy.
    Both calls read the [payeeDb] of the same render, and each [setPayeeDb]
    replaces the table, so the table of the last call that saved stands. *)
Definition savePayees (payeeDb : list PayeeInfo) (formsData : forms)
  : list PayeeInfo * bool :=
  let '(db1, saved1) := checkAndSavePayee payeeDb (fst formsData) in
  let '(db2, saved2) := checkAndSavePayee payeeDb (snd formsData) in
  (if saved2 then db2 else db1, saved1 || saved2).

(** [link.download] in [handleGenerateImage]. *)
Definition downloadName (formsData : forms) : jsstring :=
  let payeeStr :=
    if truthy (payee (fst formsData))
    then utf16 "_" ++ trim (payee (fst formsData)) else [] in
  let dateStr :=
    year (fst formsData) ++ month (fst formsData) ++ day (fst formsData) in
  utf16 "付款申请单_A4双联" ++ payeeStr ++ utf16 "_" ++ dateStr ++ utf16 ".png".

(** The lookup entry [checkAndSavePayee] builds from a record. *)
Definition entry_of (formData : PaymentFormData) : PayeeInfo :=
  {| 收款单位 := payee formData; 银行账号 := bankAccount formData;
     开户行 := bankName formData |}.

(** The identity of an entry: payee name and bank account. *)
Definition key_of (p : PayeeInfo) : jsstring * jsstring :=
  (收款单位 p, 银行账号 p).

Definition complete (p : PayeeInfo) : Prop :=
  收款单位 p <> [] /\ 银行账号 p <> [] /\ 开户行 p <> [].

(** A table as [checkAndSavePayee] builds it: no identity twice, no empty
    field. *)
Definition table_ok (payeeDb : list PayeeInfo) : Prop :=
  NoDup (map key_of payeeDb) /\ Forall complete payeeDb.

(** The two tests of [checkAndSavePayee]: the three fields are there, and
    the table holds the identity already. *)
Definition filled (formData : PaymentFormData) : bool :=
  truthy (payee formData) && truthy (bankAccount formData)
  && truthy (bankName formData).

Definition known (payeeDb : list PayeeInfo) (formData : PaymentFormData)
  : bool :=
  existsb (fun p => Str.eqb (收款单位 p) (payee formData)
                    && Str.eqb (银行账号 p) (bankAccount formData))
          payeeDb.

(** The tables built by exports alone, from the empty table. *)
Inductive saved_table : list PayeeInfo -> Prop :=
| saved_empty : saved_table []
| saved_export (payeeDb : list PayeeInfo) (formsData : forms) :
    saved_table payeeDb -> saved_table (fst (savePayees payeeDb formsData)).

(** Sample records: two complete records with different payees. *)
Definition form_acme : PaymentFormData :=
  applySelectPayee a_date getDefaults a_payee.
Definition form_bolt : PaymentFormData :=
  applySelectPayee a_date getDefaults
    {| 收款单位 := utf16 "BOLT"; 银行账号 := utf16 "9558";
       开户行 := utf16 "CCB" |}.

(* ================================================================= *)
(** ** The payee dropdown of [PaymentForm] *)

Module Dropdown.

(** The two pieces of component state. *)
Record state : Type := {
  showDropdown : bool;
  filteredOptions : list PayeeInfo
}.

Definition initial : state :=
  {| showDropdown := false; filteredOptions := [] |}.

Fixpoint startsWith (s t : jsstring) : bool :=
  match t, s with
  | [], _ => true
  | b :: t', a :: s' => N.eqb a b && startsWith s' t'
  | _ :: _, [] => false
  end.

(** [s.includes(t)] *)
Fixpoint includes (s t : jsstring) : bool :=
  startsWith s t ||
  match s with
  | [] => false
  | _ :: s' => includes s' t
  end.

Section WithCaseMapping.

(** [String.prototype.toLowerCase], the case mapping of the engine. *)
Variable toLowerCase : jsstring -> jsstring.

(** The filter of [handlePayeeChange] and [handlePayeeFocus]. *)
Definition matches (payeeOptions : list PayeeInfo) (value : jsstring)
  : list PayeeInfo :=
  filter (fun p => truthy (收款单位 p)
                   && includes (toLowerCase (收款单位 p)) (toLowerCase value))
         payeeOptions.

Definition nonempty (l : list PayeeInfo) : bool :=
  match l with [] => false | _ :: _ => true end.

(** [handlePayeeChange], the dropdown part; the call of [onChange] is
    [applyFieldChange] on the payee. *)
Definition handlePayeeChange (payeeOptions : list PayeeInfo)
           (value : jsstring) (st : state) : state :=
  if truthy value && nonempty payeeOptions then
    let ms := matches payeeOptions value in
    {| showDropdown := nonempty ms; filteredOptions := ms |}
  else {| showDropdown := false; filteredOptions := filteredOptions st |}.

(** [handlePayeeFocus] *)
Definition handlePayeeFocus (payeeOptions : list PayeeInfo)
           (data : PaymentFormData) (st : state) : state :=
  if truthy (payee data) && nonempty payeeOptions then
    let ms := matches payeeOptions (payee data) in
    {| showDropdown := nonempty ms; filteredOptions := ms |}
  else st.

(** What the dropdown does on [handleOptionClick], on the clear button and on
    a click outside: it closes. *)
Definition close (st : state) : state :=
  {| showDropdown := false; filteredOptions := filteredOptions st |}.

(** One event on the dropdown. *)
Inductive step : state -> state -> Prop :=
| step_change (opts : list PayeeInfo) (v : jsstring) (st : state) :
    step st (handlePayeeChange opts v st)
| step_focus (opts : list PayeeInfo) (d : PaymentFormData) (st : state) :
    step st (handlePayeeFocus opts d st)
| step_close (st : state) : step st (close st).

Inductive reachable : state -> Prop :=
| reach_initial : reachable initial
| reach_next (st st' : state) : reachable st -> step st st' -> reachable st'.

End WithCaseMapping.

(** [handleOptionClick] on the record: the selection when [onPayeeSelect] is
    given, as [App] does, and an edit of the payee otherwise. *)
Definition handleOptionClick (withSelect : bool) (now : Date)
           (option : PayeeInfo) (r : PaymentFormData) : PaymentFormData :=
  if withSelect then applySelectPayee now r option
  else applyFieldChange now r Key.payee (收款单位 option).

End Dropdown.

(* ================================================================= *)
(** ** Reading a transcription back *)

(** The value of a digit character, by its place in [digit]. *)
Fixpoint index_of (c : char) (ds : list jsstring) (i : Z) : option Z :=
  match ds with
  | [] => None
  | d :: ds' => if Str.eqb d [c] then Some i else index_of c ds' (i + 1)
  end.

(** The amount read so far: the groups closed, the open group, the digit
    waiting for its unit, and the sub-units. *)
Record reading : Type := {
  total : Z;
  section : Z;
  pending : Z;
  cents : Z
}.

(** A digit waits for its unit; a positional unit multiplies the waiting
    digit; a group unit closes the group; 零 and 整 carry no value. *)
Definition read_char (a : reading) (c : char) : option reading :=
  let unit u :=
    if (pending a =? 0)%Z then None
    else Some {| total := total a; section := section a + pending a * u;
                 pending := 0; cents := cents a |} in
  let group g :=
    Some {| total := total a + (section a + pending a) * g;
            section := 0; pending := 0; cents := cents a |} in
  let sub u :=
    if (pending a =? 0)%Z then None
    else Some {| total := total a; section := section a; pending := 0;
                 cents := cents a + pending a * u |} in
  match index_of c digit 0 with
  | Some d =>
    if (pending a =? 0)%Z then
      Some {| total := total a; section := section a; pending := d;
              cents := cents a |}
    else None
  | None =>
    if (c =? 25342)%N then unit 10          (* 拾 *)
    else if (c =? 20336)%N then unit 100    (* 佰 *)
    else if (c =? 20191)%N then unit 1000   (* 仟 *)
    else if (c =? 19975)%N then group 10000      (* 万 *)
    else if (c =? 20159)%N then group 100000000  (* 亿 *)
    else if (c =? 20803)%N then group 1          (* 元 *)
    else if (c =? 35282)%N then sub 10      (* 角 *)
    else if (c =? 20998)%N then sub 1       (* 分 *)
    else if (c =? 25972)%N then Some a      (* 整 *)
    else None
  end%Z.

Fixpoint read_from (a : reading) (s : jsstring) : option Z :=
  match s with
  | [] => Some (total a * 100 + cents a)%Z
  | c :: s' =>
    match read_char a c with
    | Some a' => read_from a' s'
    | None => None
    end
  end.

(** The amount a transcription denotes, in 分 (hundredths); nothing when the
    text is not a transcription. *)
Definition read_amount (s : jsstring) : option Z :=
  read_from {| total := 0; section := 0; pending := 0; cents := 0 |} s.

(** The transcription of an infinity. *)
Definition infinity_words : jsstring :=
  utf16 "undefined仟undefined佰undefined拾undefined亿undefined仟undefined佰undefined拾undefined万undefined仟undefined佰undefined拾undefined元undefined角undefined分".

(** The integers from [lo] on, [n] of them. *)
Fixpoint range (n : nat) (lo : Z) : list Z :=
  match n with
  | O => []
  | S n' => lo :: range n' (lo + 1)%Z
  end.

(** The whole amount with the given decimal digits, the highest first. *)
Definition of_digits (ds : list Z) : Z :=
  fold_left (fun acc d => 10 * acc + d)%Z ds 0%Z.

(** All the lists of [n] digits taken from [choices]. *)
Fixpoint digit_lists (choices : list Z) (n : nat) : list (list Z) :=
  match n with
  | O => [[]]
  | S n' =>
    flat_map (fun d => map (cons d) (digit_lists choices n')) choices
  end.

(** A whole amount reads back as itself. *)
Definition whole_reads_back (n : Z) : bool :=
  match read_amount (digitUppercase (ANum (of_Z n))) with
  | Some v => (v =? n * 100)%Z
  | None => false
  end.

(** An amount of [c] hundredths reads back as [c], or as one less. *)
Definition cents_read_back (c : Z) : bool :=
  match read_amount (digitUppercase (ANum (of_decimal false c (-2)))) with
  | Some v => ((c - 1 <=? v) && (v <=? c))%Z
  | None => false
  end.

(** An amount at or above 10^12 reads back without what is above. *)
Definition top_dropped (k n : Z) : bool :=
  match read_amount (digitUppercase (ANum (of_Z (k * 10 ^ 12 + n)))) with
  | Some v => (v =? n * 100)%Z
  | None => false
  end.

(* ================================================================= *)
(** ** Basic facts *)

Lemma Str_eqb_eq (a b : jsstring) : Str.eqb a b = true <-> a = b.
Proof.
  unfold Str.eqb. destruct (list_eq_dec N.eq_dec a b); split; congruence.
Qed.

Lemma Str_eqb_refl (a : jsstring) : Str.eqb a a = true.
Proof. now apply Str_eqb_eq. Qed.

Lemma Str_eqb_nil (a : jsstring) : Str.eqb a [] = isEmpty a.
Proof.
  destruct a as [|c a]; [apply Str_eqb_refl|].
  simpl. destruct (Str.eqb (c :: a) []) eqn:E; [|reflexivity].
  apply Str_eqb_eq in E. discriminate.
Qed.

Lemma or_empty_id (a : jsstring) : or_empty a = a.
Proof. now destruct a. Qed.

Lemma Key_eqb_eq (a b : Key.t) : Key.eqb a b = true <-> a = b.
Proof. unfold Key.eqb. destruct (Key.eq_dec a b); split; congruence. Qed.

Lemma get_set (k k' : Key.t) (v : jsstring) (r : PaymentFormData) :
  get (set k v r) k' = if Key.eqb k' k then v else get r k'.
Proof. now destruct k'. Qed.

Lemma tabulate_get (r : PaymentFormData) : tabulate (get r) = r.
Proof. now destruct r. Qed.

(** Two records with the same value under every key are the same record. *)
Lemma record_ext (r1 r2 : PaymentFormData) :
  (forall k, get r1 k = get r2 k) -> r1 = r2.
Proof.
  intros H. rewrite <- (tabulate_get r1), <- (tabulate_get r2).
  unfold tabulate. now rewrite !H.
Qed.

Lemma trimStart_blank (v : jsstring) : blank v -> trimStart v = [].
Proof.
  induction 1 as [|c v Hc _ IH]; simpl; [reflexivity|].
  now rewrite Hc.
Qed.

Lemma trim_blank (v : jsstring) : blank v -> trim v = [].
Proof.
  intros H. unfold trim, trimEnd. now rewrite (trimStart_blank v H).
Qed.

(* ================================================================= *)
(** ** The matcher: the bound on iterations is never the reason to stop *)

Lemma agree_shift (i d : nat) (s : jsstring) (k k' : cont) :
  d <= List.length s -> agree i s k k' -> agree (i + d) (skipn d s) k k'.
Proof.
  intros Hd H d' Hd'. rewrite length_skipn in Hd'.
  rewrite skipn_skipn, <- Nat.add_assoc, (Nat.add_comm d' d).
  apply H. lia.
Qed.

Lemma agree_next (i : nat) (x : char) (s : jsstring) (k k' : cont) :
  agree i (x :: s) k k' -> k (S i) s = k' (S i) s.
Proof.
  intros H. specialize (H 1). cbn in H. rewrite Nat.add_1_r in H.
  apply H. lia.
Qed.

Lemma agree_here (i : nat) (s : jsstring) (k k' : cont) :
  agree i s k k' -> k i s = k' i s.
Proof.
  intros H. specialize (H 0). cbn in H. rewrite Nat.add_0_r in H.
  apply H. lia.
Qed.

Section Repeat.

Variable m : matcher.
Hypothesis m_ext :
  forall i s k k', agree i s k k' -> m i s k = m i s k'.
Hypothesis m_fail : forall i s, m i s (fun _ _ => None) = None.

Lemma repeat_greedy_ext (fuel : nat) :
  forall i s k k',
    agree i s k k' -> repeat_greedy m fuel i s k = repeat_greedy m fuel i s k'.
Proof.
  induction fuel as [|fuel IH]; intros i s k k' H; cbn.
  - now apply agree_here.
  - rewrite (agree_here i s k k' H).
    erewrite m_ext; [reflexivity|].
    intros d Hd. cbv beta.
    destruct (Nat.eqb (i + d) i); [reflexivity|].
    apply IH. now apply agree_shift.
Qed.

Lemma repeat_greedy_fail (fuel : nat) :
  forall i s, repeat_greedy m fuel i s (fun _ _ => None) = None.
Proof.
  induction fuel as [|fuel IH]; intros i s; cbn; [reflexivity|].
  erewrite m_ext; [rewrite m_fail; reflexivity|].
  intros d _. cbv beta. rewrite IH. now destruct (Nat.eqb (i + d) i).
Qed.

(** On the empty input no iteration is accepted. *)
Lemma repeat_greedy_nil (fuel i : nat) (k : cont) :
  repeat_greedy m fuel i [] k = k i [].
Proof.
  destruct fuel as [|fuel]; cbn; [reflexivity|].
  erewrite m_ext; [rewrite m_fail; reflexivity|].
  intros d Hd. cbn in Hd. replace d with 0 by lia.
  cbv beta. now rewrite Nat.add_0_r, Nat.eqb_refl.
Qed.

(** Any bound that is at least the length of the input gives the same
    result. *)
Lemma repeat_greedy_fuel (f1 : nat) :
  forall f2 i s k,
    List.length s <= f1 -> List.length s <= f2 ->
    repeat_greedy m f1 i s k = repeat_greedy m f2 i s k.
Proof.
  induction f1 as [|f1 IH]; intros f2 i s k H1 H2.
  - destruct s; [|cbn in H1; lia].
    now rewrite !repeat_greedy_nil.
  - destruct f2 as [|f2].
    + destruct s; [|cbn in H2; lia].
      now rewrite !repeat_greedy_nil.
    + cbn. erewrite m_ext; [reflexivity|].
      intros d Hd. cbv beta.
      destruct (Nat.eqb (i + d) i) eqn:E; [reflexivity|].
      assert (d <> 0).
      { intros ->. now rewrite Nat.add_0_r, Nat.eqb_refl in E. }
      apply IH; rewrite length_skipn; lia.
Qed.

End Repeat.

Lemma rmatch_ext (r : regex) :
  forall i s k k', agree i s k k' -> rmatch r i s k = rmatch r i s k'.
Proof.
  induction r as [c| | | |r1 IH1 r2 IH2|r IH|r IH]; intros i s k k' H; cbn.
  - destruct s as [|x s]; [reflexivity|].
    now rewrite (agree_next i x s k k' H).
  - destruct s as [|x s]; [reflexivity|].
    now rewrite (agree_next i x s k k' H).
  - now rewrite (agree_here i s k k' H).
  - destruct s; [|reflexivity]. exact (agree_here i [] k k' H).
  - apply IH1. intros d Hd. cbv beta.
    apply IH2. now apply agree_shift.
  - apply repeat_greedy_ext; [exact IH|exact H].
  - apply IH. intros d Hd. cbv beta.
    apply repeat_greedy_ext; [exact IH|].
    now apply agree_shift.
Qed.

(** A match that nothing can follow fails. *)
Lemma rmatch_fail (r : regex) :
  forall i s, rmatch r i s (fun _ _ => None) = None.
Proof.
  induction r as [c| | | |r1 IH1 r2 IH2|r IH|r IH]; intros i s; cbn.
  - now destruct s as [|x s]; [|destruct (N.eqb x c)].
  - now destruct s as [|x s]; [|destruct (isLineTerminator x)].
  - now destruct (Nat.eqb i 0).
  - now destruct s.
  - erewrite rmatch_ext; [apply IH1|].
    intros d _. cbv beta. apply IH2.
  - apply repeat_greedy_fail; [apply rmatch_ext|exact IH].
  - erewrite rmatch_ext; [apply IH|].
    intros d _. cbv beta.
    apply repeat_greedy_fail; [apply rmatch_ext|exact IH].
Qed.

(** The greedy star obeys the recursive equation of the language's
    repetition: try one iteration that consumes something and repeat, else
    go on with what follows. *)
Lemma rmatch_star (r : regex) (i : nat) (s : jsstring) (k : cont) :
  rmatch (Star r) i s k =
  match rmatch r i s (fun j t => if Nat.eqb j i then None
                                 else rmatch (Star r) j t k) with
  | Some e => Some e
  | None => k i s
  end.
Proof.
  cbn [rmatch].
  rewrite (repeat_greedy_fuel (rmatch r) (rmatch_ext r) (rmatch_fail r)
             (List.length s) (S (List.length s)) i s k) by lia.
  cbn [repeat_greedy].
  erewrite rmatch_ext; [reflexivity|].
  intros d Hd. cbv beta.
  destruct (Nat.eqb (i + d) i); [reflexivity|].
  apply (repeat_greedy_fuel (rmatch r) (rmatch_ext r) (rmatch_fail r));
    rewrite ?length_skipn; lia.
Qed.

(** A match ends where its continuation was called: at most the length of
    the input further on. *)
Lemma repeat_greedy_cont (m : matcher) :
  (forall i s k e, m i s k = Some e ->
     exists d, d <= List.length s /\ k (i + d) (skipn d s) = Some e) ->
  forall fuel i s k e,
    repeat_greedy m fuel i s k = Some e ->
    exists d, d <= List.length s /\ k (i + d) (skipn d s) = Some e.
Proof.
  intros Hm. induction fuel as [|fuel IH]; intros i s k e H; cbn in H.
  - exists 0. rewrite Nat.add_0_r. split; [lia|exact H].
  - destruct (m i s _) as [e'|] eqn:E.
    + injection H as ->. apply Hm in E. destruct E as (d1 & Hd1 & E).
      cbv beta in E. destruct (Nat.eqb (i + d1) i); [discriminate E|].
      apply IH in E. destruct E as (d2 & Hd2 & E).
      rewrite length_skipn in Hd2.
      rewrite skipn_skipn, <- Nat.add_assoc, (Nat.add_comm d2 d1) in E.
      exists (d1 + d2). split; [lia|exact E].
    + exists 0. rewrite Nat.add_0_r. split; [lia|exact H].
Qed.

Lemma rmatch_cont (r : regex) :
  forall i s k e,
    rmatch r i s k = Some e ->
    exists d, d <= List.length s /\ k (i + d) (skipn d s) = Some e.
Proof.
  induction r as [c| | | |r1 IH1 r2 IH2|r IH|r IH]; intros i s k e H;
    cbn in H.
  - destruct s as [|x s]; [discriminate H|].
    destruct (N.eqb x c); [|discriminate H].
    exists 1. rewrite Nat.add_1_r. split; [cbn; lia|exact H].
  - destruct s as [|x s]; [discriminate H|].
    destruct (isLineTerminator x); [discriminate H|].
    exists 1. rewrite Nat.add_1_r. split; [cbn; lia|exact H].
  - destruct (Nat.eqb i 0); [|discriminate H].
    exists 0. rewrite Nat.add_0_r. split; [lia|exact H].
  - destruct s; [|discriminate H].
    exists 0. rewrite Nat.add_0_r. split; [lia|exact H].
  - apply IH1 in H. destruct H as (d1 & Hd1 & H).
    apply IH2 in H. destruct H as (d2 & Hd2 & H).
    rewrite length_skipn in Hd2.
    rewrite skipn_skipn, <- Nat.add_assoc, (Nat.add_comm d2 d1) in H.
    exists (d1 + d2). split; [lia|exact H].
  - now apply (repeat_greedy_cont (rmatch r) IH) in H.
  - apply IH in H. destruct H as (d1 & Hd1 & H).
    apply (repeat_greedy_cont (rmatch r) IH) in H.
    destruct H as (d2 & Hd2 & H).
    rewrite length_skipn in Hd2.
    rewrite skipn_skipn, <- Nat.add_assoc, (Nat.add_comm d2 d1) in H.
    exists (d1 + d2). split; [lia|exact H].
Qed.

Lemma search_bounds (r : regex) (s : jsstring) :
  forall i b e,
    search r i s = Some (b, e) -> i <= b /\ b <= e /\ e <= i + List.length s.
Proof.
  induction s as [|x s IH]; intros i b e H; cbn [search] in H.
  - destruct (rmatch r i [] _) as [e'|] eqn:E; [|discriminate H].
    injection H as <- <-. apply rmatch_cont in E.
    destruct E as (d & Hd & E). injection E as <-. cbn in *. lia.
  - destruct (rmatch r i (x :: s) _) as [e'|] eqn:E.
    + injection H as <- <-. apply rmatch_cont in E.
      destruct E as (d & Hd & E). injection E as <-. cbn in *. lia.
    + apply IH in H. cbn. lia.
Qed.

(** The global replacement never stops for want of iterations. *)
Lemma replace_from_fuel (r : regex) (rep : jsstring) (f1 : nat) :
  forall f2 i s,
    List.length s < f1 -> List.length s < f2 ->
    replace_from f1 r rep i s = replace_from f2 r rep i s.
Proof.
  induction f1 as [|f1 IH]; intros f2 i s H1 H2; [lia|].
  destruct f2 as [|f2]; [lia|]. cbn [replace_from].
  destruct (search r i s) as [[b e]|] eqn:E; [|reflexivity].
  apply search_bounds in E. f_equal. f_equal.
  destruct (Nat.eqb e b) eqn:Eb.
  - destruct (skipn (b - i) s) as [|c t] eqn:Es; [reflexivity|].
    f_equal. assert (Hl := length_skipn (b - i) s).
    rewrite Es in Hl. cbn in Hl. apply IH; lia.
  - apply Nat.eqb_neq in Eb. apply IH; rewrite length_skipn; lia.
Qed.

(* ================================================================= *)
(** ** Amount transcription *)

(** The cleanup passes on the string built for 100000000. *)
Example cleanup_passes :
  replace re_zeros_yuan (utf16 "元") (utf16 "壹亿零万零元整") = utf16 "壹亿元整"
  /\ replaceAll re_zero_run (utf16 "零") (utf16 "壹仟零佰零拾伍元整")
     = utf16 "壹仟零伍元整"
  /\ replace re_zeros_end [] (utf16 "零仟零佰零拾零") = []
  /\ replace re_zeros_end [] (utf16 "壹仟零佰零拾零") = utf16 "壹仟"
  /\ replace re_zero_any [] (utf16 "零角") = []
  /\ replace re_whole (utf16 "零元整") (utf16 "整") = utf16 "零元整".
Proof. vm_compute. repeat split. Qed.

(** The numeric parsers on a few texts. *)
Example parse_samples :
  Number (AStr (utf16 "1234.56")) = n1234_56
  /\ parseFloat (utf16 " 12abc") = of_Z 12
  /\ Number (AStr (utf16 "12abc")) = NaN
  /\ Number (AStr (utf16 "")) = of_Z 0
  /\ parseFloat (utf16 "") = NaN
  /\ Number (AStr (utf16 "0x1F")) = of_Z 31
  /\ Number (AStr (utf16 "1e3")) = of_Z 1000.
Proof. vm_compute. repeat split. Qed.

(** C3: [digitUppercase] maps 0 to "零元整", 1005 to "壹仟零伍元整" (the two
    zero digits inside give one zero marker) and 100000000 to "壹亿元整"
    (the two all-zero lower groups give nothing). *)
Theorem C3_integer_samples :
  digitUppercase (ANum (of_Z 0)) = utf16 "零元整"
  /\ digitUppercase (ANum (of_Z 1005)) = utf16 "壹仟零伍元整"
  /\ digitUppercase (ANum (of_Z 100000000)) = utf16 "壹亿元整".
Proof. vm_compute. repeat split. Qed.

(** The products the decimal loop takes the digits of, at 1234.56: the
    second one falls below 123456, and its floor ends in 5. *)
Lemma products_1234_56 :
  Math_floor (mul (mul n1234_56 ten) (Math_pow10 0)) = of_Z 12345
  /\ mul (mul n1234_56 ten) (Math_pow10 1)
     = S754_finite false 8483831719919615 (-36)
  /\ Math_floor (mul (mul n1234_56 ten) (Math_pow10 1)) = of_Z 123455.
Proof. vm_compute. repeat split. Qed.

(** The whole transcription of 1234.56, as a number and as a text. *)
Lemma digitUppercase_1234_56 :
  digitUppercase (ANum n1234_56) = utf16 "壹仟贰佰叁拾肆元伍角伍分"
  /\ digitUppercase (AStr (utf16 "1234.56")) = utf16 "壹仟贰佰叁拾肆元伍角伍分".
Proof. vm_compute. split; reflexivity. Qed.

(** C4, as stated, fails: the transcription of 1234.56 is not the quoted
    string "壹仟贰佰叄拾肆元伍角陆分"; it already differs at the character
    for 3, which the digit table writes 叁. *)
Lemma C4_counterexample :
  digitUppercase (ANum n1234_56)
  <> utf16 "壹仟贰佰叄拾肆元" ++ utf16 "伍角陆分"
  /\ nth_error (digitUppercase (ANum n1234_56)) 4 = Some 21441%N
  /\ nth_error (utf16 "壹仟贰佰叄拾肆元" ++ utf16 "伍角陆分") 4 = Some 21444%N.
Proof. vm_compute. repeat split. discriminate. Qed.

(** C4, amended: the transcription of 1234.56 is the integer part
    "壹仟贰佰叁拾肆元", with 3 written 叁 as in the digit table, then "伍角",
    then one character of the digit table and "分"; it holds no "整". *)
Theorem C4_amended :
  exists d : jsstring,
    In d digit
    /\ digitUppercase (ANum n1234_56)
       = utf16 "壹仟贰佰叁拾肆元" ++ utf16 "伍角" ++ d ++ utf16 "分"
    /\ ~ In 25972%N (digitUppercase (ANum n1234_56)).
Proof.
  exists (utf16 "伍"). split; [|split].
  - vm_compute. tauto.
  - vm_compute. reflexivity.
  - vm_compute. intros H.
    repeat (destruct H as [H|H]; [discriminate H|]). exact H.
Qed.

(** [digitUppercase] on an argument that converts to NaN. *)
Lemma digitUppercase_NaN (n : arg) :
  Number n = NaN -> digitUppercase n = utf16 "undefined角undefined分".
Proof. intros H. unfold digitUppercase. rewrite H. vm_compute. reflexivity. Qed.

(** C2, as stated, fails: "abc" does not parse as a number, and its
    transcription holds the text "undefined" where the two digit characters
    should be; it is not the zero amount either. *)
Lemma C2_counterexample :
  isNaN (Number (AStr (utf16 "abc"))) = true
  /\ digitUppercase (AStr (utf16 "abc")) = utf16 "undefined角undefined分"
  /\ well_formed (digitUppercase (AStr (utf16 "abc"))) = false
  /\ digitUppercase (AStr (utf16 "abc")) <> utf16 "零元整".
Proof. vm_compute. repeat split. discriminate. Qed.

(** C2, amended: on every input that does not parse as a number
    [digitUppercase] returns (it is a total function, nothing throws) the
    fixed string "undefined角undefined分": the failed conversion shows as the
    text "undefined" in the place of the two digit characters. *)
Theorem C2_amended (n : arg) :
  isNaN (Number n) = true ->
  digitUppercase n = utf16 "undefined角undefined分".
Proof.
  intros Hn. apply digitUppercase_NaN. now destruct (Number n).
Qed.

Lemma C2_amended_witness :
  isNaN (Number (AStr (utf16 "abc"))) = true
  /\ digitUppercase (AStr (utf16 "abc")) = utf16 "undefined角undefined分".
Proof.
  split; [reflexivity|].
  apply (C2_amended (AStr (utf16 "abc"))). reflexivity.
Defined.

(** The guard is in the caller: a value of the amount in digits that
    [parseFloat] rejects is written, and the amount in words stays. *)
Lemma rejected_amount_keeps_words (now : Date) (r : PaymentFormData)
      (v : jsstring) :
  isNaN (parseFloat v) = true -> v <> [] ->
  applyFieldChange now r Key.amountNumeric v = set Key.amountNumeric v r.
Proof.
  intros Hv Hne. unfold applyFieldChange.
  replace (Key.eqb Key.amountNumeric Key.amountNumeric) with true
    by reflexivity.
  replace (Key.eqb Key.amountNumeric Key.payee) with false by reflexivity.
  rewrite Hv, Str_eqb_nil. cbn [negb andb].
  destruct v as [|c v]; [congruence|]. reflexivity.
Qed.

(* ================================================================= *)
(** ** The payee cascade *)

(** [applyFieldChange] on the payee, branch by branch. *)
Lemma payee_change_get (now : Date) (r : PaymentFormData) (v : jsstring)
      (k : Key.t) :
  get (applyFieldChange now r Key.payee v) k =
  if truthy v && negb (isEmpty (trim v)) then
    if isEmpty (year r) && isEmpty (month r) && isEmpty (day r) then
      match k with
      | Key.payee => v
      | Key.year => Z_toString (getFullYear now)
      | Key.month => Z_toString (getMonth now + 1)
      | Key.day => Z_toString (getDate now)
      | _ => get r k
      end
    else if Key.eqb k Key.payee then v else get r k
  else if Key.eqb k Key.payee then v
       else if cleared k then [] else get r k.
Proof.
  unfold applyFieldChange.
  replace (Key.eqb Key.payee Key.amountNumeric) with false by reflexivity.
  replace (Key.eqb Key.payee Key.payee) with true by reflexivity.
  rewrite Str_eqb_nil.
  destruct (truthy v && negb (isEmpty (trim v))).
  - replace (year (set Key.payee v r)) with (year r) by reflexivity.
    replace (month (set Key.payee v r)) with (month r) by reflexivity.
    replace (day (set Key.payee v r)) with (day r) by reflexivity.
    unfold truthy. rewrite !negb_involutive.
    destruct (isEmpty (year r) && isEmpty (month r) && isEmpty (day r));
      now destruct k.
  - now destruct k.
Qed.

(** [handleFormChange] and [handlePayeeSelect] update the copy at the index
    as [applyFieldChange] and [applySelectPayee] say, and leave the other
    copy alone. *)
Lemma handleFormChange_at (now : Date) (i j : index) (key : Key.t)
      (value : jsstring) (prev : forms) :
  form_at j (handleFormChange now i key value prev) =
  if index_eqb i j then applyFieldChange now (form_at i prev) key value
  else form_at j prev.
Proof. now destruct i, j, prev. Qed.

Lemma handlePayeeSelect_at (now : Date) (i j : index) (p : PayeeInfo)
      (prev : forms) :
  form_at j (handlePayeeSelect now i p prev) =
  if index_eqb i j then applySelectPayee now (form_at i prev) p
  else form_at j prev.
Proof. now destruct i, j, prev. Qed.

(** C5: setting the payee to the empty string empties payee, bank account,
    bank name, year, month, day, amount in words, amount in digits, reason
    and attachment count, and keeps department, serial number and the ten
    signature names. *)
Theorem C5_clear_payee (now : Date) (r : PaymentFormData) :
  let r' := applyFieldChange now r Key.payee [] in
  (payee r' = [] /\ bankAccount r' = [] /\ bankName r' = []
   /\ year r' = [] /\ month r' = [] /\ day r' = []
   /\ amountChinese r' = [] /\ amountNumeric r' = []
   /\ reason r' = [] /\ attachments r' = [])
  /\ (dept r' = dept r /\ serial r' = serial r)
  /\ (leader r' = leader r /\ financeManager r' = financeManager r
      /\ deptManager r' = deptManager r /\ operator r' = operator r
      /\ accountant r' = accountant r /\ bookkeeper r' = bookkeeper r
      /\ reviewer r' = reviewer r /\ cashier r' = cashier r
      /\ maker r' = maker r /\ receiver r' = receiver r).
Proof. destruct r. cbv zeta. repeat split. Qed.

(** C10: a payee value made of white space only, though not empty, takes
    the clearing branch: it is written into the payee, the dependent fields
    are emptied, the date fields among them, and the other fields stay. *)
Theorem C10_blank_payee (now : Date) (r : PaymentFormData) (v : jsstring) :
  v <> [] -> blank v ->
  let r' := applyFieldChange now r Key.payee v in
  payee r' = v
  /\ (bankAccount r' = [] /\ bankName r' = []
      /\ year r' = [] /\ month r' = [] /\ day r' = []
      /\ amountChinese r' = [] /\ amountNumeric r' = []
      /\ reason r' = [] /\ attachments r' = [])
  /\ (forall k, k <> Key.payee -> cleared k = false -> get r' k = get r k).
Proof.
  intros _ Hb r'.
  assert (G : forall k, get r' k =
                        if Key.eqb k Key.payee then v
                        else if cleared k then [] else get r k).
  { intros k. unfold r'. rewrite payee_change_get, (trim_blank v Hb).
    cbn [isEmpty negb]. now rewrite andb_false_r. }
  split; [exact (G Key.payee)|]. split.
  - repeat split;
      [ exact (G Key.bankAccount) | exact (G Key.bankName) | exact (G Key.year)
      | exact (G Key.month) | exact (G Key.day) | exact (G Key.amountChinese)
      | exact (G Key.amountNumeric) | exact (G Key.reason)
      | exact (G Key.attachments) ].
  - intros k Hk Hc. rewrite G, Hc.
    destruct (Key.eqb k Key.payee) eqn:E; [|reflexivity].
    apply Key_eqb_eq in E. contradiction.
Qed.

Lemma C10_blank_payee_witness :
  utf16 "  " <> [] /\ blank (utf16 "  ")
  /\ payee (applyFieldChange a_date getDefaults Key.payee (utf16 "  "))
     = utf16 "  "
  /\ dates (applyFieldChange a_date getDefaults Key.payee (utf16 "  "))
     = ([], [], []).
Proof.
  assert (H1 : utf16 "  " <> []) by (vm_compute; discriminate).
  assert (H2 : blank (utf16 "  ")) by (repeat constructor).
  split; [exact H1|]. split; [exact H2|].
  pose proof (C10_blank_payee a_date getDefaults (utf16 "  ") H1 H2)
    as [Hp [Hc _]].
  split; [exact Hp|].
  destruct Hc as (_ & _ & Hy & Hm & Hd & _).
  unfold dates. now rewrite Hy, Hm, Hd.
Defined.

Lemma dates_get (r : PaymentFormData) :
  dates r = (get r Key.year, get r Key.month, get r Key.day).
Proof. reflexivity. Qed.

Lemma dates_empty (r : PaymentFormData) :
  isEmpty (year r) && isEmpty (month r) && isEmpty (day r) = true
  <-> dates r = ([], [], []).
Proof.
  unfold dates.
  destruct (year r), (month r), (day r); simpl; split; intros H;
    try reflexivity; discriminate H.
Qed.

Lemma trim_nonempty (v : jsstring) :
  trim v <> [] -> truthy v && negb (isEmpty (trim v)) = true.
Proof.
  intros H. destruct v as [|c v]; [now elim H|].
  destruct (trim (c :: v)); [now elim H|reflexivity].
Qed.

(** C6, as stated, fails on a payee value of one space: with the date fields
    all empty they are not filled with today's date, and with a year already
    there the date fields are emptied, not left as they were. *)
Lemma C6_counterexample :
  utf16 " " <> []
  /\ dates getDefaults = ([], [], [])
  /\ dates (applyFieldChange a_date getDefaults Key.payee (utf16 " "))
     <> today a_date
  /\ dates (set Key.year (utf16 "2020") getDefaults) <> ([], [], [])
  /\ dates (applyFieldChange a_date (set Key.year (utf16 "2020") getDefaults)
                             Key.payee (utf16 " "))
     <> dates (set Key.year (utf16 "2020") getDefaults).
Proof. vm_compute. repeat split; discriminate. Qed.

(** C6, amended: for a payee value that holds a character other than white
    space, a record whose three date fields are all empty gets today's year,
    1-based month and day as decimal strings, and a record with a date field
    that is not empty keeps its three date fields. *)
Theorem C6_amended (now : Date) (r : PaymentFormData) (v : jsstring) :
  trim v <> [] ->
  (dates r = ([], [], []) ->
   dates (applyFieldChange now r Key.payee v) = today now)
  /\ (dates r <> ([], [], []) ->
      dates (applyFieldChange now r Key.payee v) = dates r).
Proof.
  intros Hv. apply trim_nonempty in Hv.
  split; intros Hd; rewrite dates_get, !payee_change_get, Hv.
  - apply dates_empty in Hd. now rewrite Hd.
  - destruct (isEmpty (year r) && isEmpty (month r) && isEmpty (day r)) eqn:E;
      [|reflexivity].
    apply dates_empty in E. contradiction.
Qed.

Lemma C6_amended_witness :
  trim (utf16 "ACME") <> []
  /\ dates getDefaults = ([], [], [])
  /\ dates (applyFieldChange a_date getDefaults Key.payee (utf16 "ACME"))
     = (utf16 "2026", utf16 "11", utf16 "3").
Proof.
  assert (H : trim (utf16 "ACME") <> []) by (vm_compute; discriminate).
  split; [exact H|]. split; [reflexivity|].
  exact (proj1 (C6_amended a_date getDefaults (utf16 "ACME") H) eq_refl).
Defined.

(** C7: selecting a lookup entry writes its payee name, bank account and
    bank name into the record and writes today's date into the three date
    fields whatever they held; the other fields stay. *)
Theorem C7_select_payee (now : Date) (r : PaymentFormData) (p : PayeeInfo) :
  let r' := applySelectPayee now r p in
  payee r' = 收款单位 p
  /\ bankAccount r' = 银行账号 p
  /\ bankName r' = 开户行 p
  /\ dates r' = today now
  /\ (forall k, cleared k = false -> k <> Key.payee -> get r' k = get r k).
Proof.
  unfold applySelectPayee. rewrite !or_empty_id. cbv zeta.
  repeat split. intros k Hc Hk.
  destruct k; try discriminate Hc; try reflexivity. now elim Hk.
Qed.

(* ================================================================= *)
(** ** Idempotence *)

Lemma set_set (k : Key.t) (v : jsstring) (r : PaymentFormData) :
  set k v (set k v r) = set k v r.
Proof. now destruct k. Qed.

Lemma amount_change_idem (now : Date) (r : PaymentFormData) (v : jsstring) :
  applyFieldChange now (applyFieldChange now r Key.amountNumeric v)
                   Key.amountNumeric v
  = applyFieldChange now r Key.amountNumeric v.
Proof.
  unfold applyFieldChange.
  replace (Key.eqb Key.amountNumeric Key.amountNumeric) with true
    by reflexivity.
  replace (Key.eqb Key.amountNumeric Key.payee) with false by reflexivity.
  destruct (negb (isNaN (parseFloat v)) && negb (Str.eqb v []));
    [reflexivity|].
  destruct (Str.eqb v []); reflexivity.
Qed.

Lemma payee_change_idem (now : Date) (r : PaymentFormData) (v : jsstring) :
  applyFieldChange now (applyFieldChange now r Key.payee v) Key.payee v
  = applyFieldChange now r Key.payee v.
Proof.
  apply record_ext. intros k.
  rewrite payee_change_get.
  replace (year (applyFieldChange now r Key.payee v))
    with (get (applyFieldChange now r Key.payee v) Key.year) by reflexivity.
  replace (month (applyFieldChange now r Key.payee v))
    with (get (applyFieldChange now r Key.payee v) Key.month) by reflexivity.
  replace (day (applyFieldChange now r Key.payee v))
    with (get (applyFieldChange now r Key.payee v) Key.day) by reflexivity.
  rewrite !payee_change_get.
  destruct (truthy v && negb (isEmpty (trim v))).
  - destruct (isEmpty (year r) && isEmpty (month r) && isEmpty (day r)) eqn:E.
    + cbn [get Key.eqb].
      destruct (isEmpty (Z_toString (getFullYear now))
                && isEmpty (Z_toString (getMonth now + 1))
                && isEmpty (Z_toString (getDate now)));
        now destruct k.
    + replace (Key.eqb Key.year Key.payee) with false by reflexivity.
      replace (Key.eqb Key.month Key.payee) with false by reflexivity.
      replace (Key.eqb Key.day Key.payee) with false by reflexivity.
      cbn [get]. rewrite E. now destruct k.
  - now destruct k.
Qed.

(** C8: with the current date held fixed, applying [applyFieldChange] a
    second time with the same field and the same value changes nothing. *)
Theorem C8_idempotent (now : Date) (r : PaymentFormData) (k : Key.t)
        (v : jsstring) :
  applyFieldChange now (applyFieldChange now r k v) k v
  = applyFieldChange now r k v.
Proof.
  destruct k;
    try apply amount_change_idem; try apply payee_change_idem;
    apply set_set.
Qed.

(* ================================================================= *)
(** ** The lookup table *)

(** C9: when payee name, bank account and bank name of the record are all
    non-empty and the table holds an entry with that payee name and that
    bank account, whatever its bank name, [checkAndSavePayee] leaves the
    table as it is (and reports that nothing was saved). *)
Theorem C9_lookup_dedup (payeeDb : list PayeeInfo) (r : PaymentFormData) :
  payee r <> [] -> bankAccount r <> [] -> bankName r <> [] ->
  (exists p, In p payeeDb /\ 收款单位 p = payee r
             /\ 银行账号 p = bankAccount r) ->
  checkAndSavePayee payeeDb r = (payeeDb, false).
Proof.
  intros _ _ _ (p & Hin & Hn & Ha). unfold checkAndSavePayee.
  destruct (truthy (payee r) && truthy (bankAccount r) && truthy (bankName r));
    [|reflexivity].
  replace (existsb _ payeeDb) with true; [reflexivity|].
  symmetry. apply existsb_exists. exists p. split; [exact Hin|].
  now rewrite Hn, Ha, !Str_eqb_refl.
Qed.

Lemma C9_lookup_dedup_witness :
  payee other_bank <> [] /\ bankAccount other_bank <> []
  /\ bankName other_bank <> []
  /\ bankName other_bank <> 开户行 a_payee
  /\ checkAndSavePayee [a_payee] other_bank = ([a_payee], false).
Proof.
  assert (H1 : payee other_bank <> []) by (vm_compute; discriminate).
  assert (H2 : bankAccount other_bank <> []) by (vm_compute; discriminate).
  assert (H3 : bankName other_bank <> []) by (vm_compute; discriminate).
  repeat (split; [assumption|]).
  split; [vm_compute; discriminate|].
  apply (C9_lookup_dedup [a_payee] other_bank H1 H2 H3).
  exists a_payee. split; [now left|]. split; reflexivity.
Defined.

(** A record not in the table is appended, at the end. *)
Lemma checkAndSavePayee_new :
  checkAndSavePayee []
    (applySelectPayee a_date getDefaults a_payee) = ([a_payee], true).
Proof. reflexivity. Qed.

(* ================================================================= *)
(** ** Amount in words and amount in digits *)

(** Every call of [applyFieldChange] on a field other than the amount in
    words keeps the relation between the two amounts. *)
Lemma change_keeps_invariant (now : Date) (r : PaymentFormData) (k : Key.t)
      (v : jsstring) :
  not_words k = true -> amount_invariant r ->
  amount_invariant (applyFieldChange now r k v).
Proof.
  intros Hk [Hv He].
  destruct k; try discriminate Hk; try (split; [exact Hv|exact He]).
  - (* payee *)
    unfold amount_invariant.
    replace (amountNumeric (applyFieldChange now r Key.payee v))
      with (get (applyFieldChange now r Key.payee v) Key.amountNumeric)
      by reflexivity.
    replace (amountChinese (applyFieldChange now r Key.payee v))
      with (get (applyFieldChange now r Key.payee v) Key.amountChinese)
      by reflexivity.
    rewrite !payee_change_get.
    destruct (truthy v && negb (isEmpty (trim v))).
    + destruct (isEmpty (year r) && isEmpty (month r) && isEmpty (day r));
        (split; [exact Hv|exact He]).
    + cbn. split; [discriminate|reflexivity].
  - (* amountNumeric *)
    unfold amount_invariant, applyFieldChange.
    replace (Key.eqb Key.amountNumeric Key.amountNumeric) with true
      by reflexivity.
    replace (Key.eqb Key.amountNumeric Key.payee) with false by reflexivity.
    fold (validAmount v).
    destruct (validAmount v) eqn:E.
    + split; [reflexivity|]. cbn. intros ->. discriminate E.
    + rewrite Str_eqb_nil. destruct v as [|c v]; cbn.
      * split; [discriminate|reflexivity].
      * split; [intros H|discriminate]. cbn in E. congruence.
Qed.

(** C1, as stated, fails: typing 5 as amount in digits and then editing the
    amount in words leaves a reachable record whose digits are a valid number
    and whose words are not its transcription; editing the amount in words of
    the initial record leaves words that are not empty next to empty
    digits. *)
Lemma C1_counterexample :
  (reachable any_field words_edited
   /\ validAmount (amountNumeric words_edited) = true
   /\ amountChinese words_edited
      <> digitUppercase (ANum (parseFloat (amountNumeric words_edited))))
  /\ (reachable any_field words_only
      /\ amountNumeric words_only = []
      /\ amountChinese words_only <> [])
  /\ ~ (forall r, reachable any_field r -> amount_invariant r).
Proof.
  assert (R1 : reachable any_field words_edited).
  { unfold words_edited, typed_5.
    repeat (eapply reach_step; [|apply step_change; reflexivity]).
    apply reach_init. }
  assert (R2 : reachable any_field words_only).
  { unfold words_only.
    eapply reach_step; [apply reach_init|apply step_change; reflexivity]. }
  assert (N2 : amountChinese words_only <> []) by (vm_compute; discriminate).
  split; [|split].
  - split; [exact R1|]. split; [reflexivity|]. vm_compute. discriminate.
  - split; [exact R2|]. split; [reflexivity|exact N2].
  - intros H. destruct (H _ R2) as [_ He]. apply N2, He. reflexivity.
Qed.

(** C1, amended: on every record reached from the all-empty record by
    [applyFieldChange] on fields other than the amount in words and by
    [applySelectPayee], the amount in words is the transcription of the
    amount in digits whenever that is a valid non-empty number, and is empty
    whenever the amount in digits is empty. *)
Theorem C1_amended (r : PaymentFormData) :
  reachable not_words r -> amount_invariant r.
Proof.
  induction 1 as [|r r' _ IH Hs].
  - split; [discriminate|reflexivity].
  - destruct Hs as [now r k v Hk|now r p].
    + now apply change_keeps_invariant.
    + destruct IH as [Hv He]. split; [exact Hv|exact He].
Qed.

Lemma C1_amended_witness :
  reachable not_words typed_5
  /\ amountNumeric typed_5 = utf16 "5"
  /\ amountChinese typed_5 = utf16 "伍元整"
  /\ amount_invariant typed_5.
Proof.
  assert (R : reachable not_words typed_5).
  { unfold typed_5.
    eapply reach_step; [apply reach_init|apply step_change; reflexivity]. }
  split; [exact R|]. split; [reflexivity|]. split; [reflexivity|].
  exact (C1_amended typed_5 R).
Defined.

(* ================================================================= *)
(** ** More on the field cascade *)

Lemma plain_change (now : Date) (r : PaymentFormData) (k : Key.t)
      (v : jsstring) :
  k <> Key.payee -> k <> Key.amountNumeric ->
  applyFieldChange now r k v = set k v r.
Proof. intros H1 H2. destruct k; try reflexivity; contradiction. Qed.

Lemma valid_amount_change (now : Date) (r : PaymentFormData) (v : jsstring) :
  validAmount v = true ->
  applyFieldChange now r Key.amountNumeric v
  = set Key.amountChinese (digitUppercase (ANum (parseFloat v)))
        (set Key.amountNumeric v r).
Proof.
  intros H. unfold applyFieldChange.
  replace (Key.eqb Key.amountNumeric Key.amountNumeric) with true
    by reflexivity.
  replace (Key.eqb Key.amountNumeric Key.payee) with false by reflexivity.
  fold (validAmount v). now rewrite H.
Qed.

Lemma amount_change_get (now : Date) (r : PaymentFormData) (v : jsstring)
      (k : Key.t) :
  get (applyFieldChange now r Key.amountNumeric v) k =
  match k with
  | Key.amountNumeric => v
  | Key.amountChinese =>
    if validAmount v then digitUppercase (ANum (parseFloat v))
    else if isEmpty v then [] else amountChinese r
  | _ => get r k
  end.
Proof.
  unfold applyFieldChange.
  replace (Key.eqb Key.amountNumeric Key.amountNumeric) with true
    by reflexivity.
  replace (Key.eqb Key.amountNumeric Key.payee) with false by reflexivity.
  fold (validAmount v). rewrite Str_eqb_nil.
  destruct (validAmount v); [now destruct k|].
  destruct (isEmpty v); now destruct k.
Qed.

(** X1: what an edit can change.  A field whose value differs after
    [applyFieldChange] is the edited field, or the amount in words after an
    edit of the amount in digits, or one of the nine dependent fields after
    an edit of the payee. *)
Theorem X1_footprint (now : Date) (r : PaymentFormData) (k k' : Key.t)
        (v : jsstring) :
  get (applyFieldChange now r k v) k' <> get r k' ->
  k' = k
  \/ (k = Key.amountNumeric /\ k' = Key.amountChinese)
  \/ (k = Key.payee /\ cleared k' = true).
Proof.
  intros H.
  destruct (Key.eq_dec k' k) as [E|NE]; [now left|right].
  destruct (Key.eq_dec k Key.amountNumeric) as [->|N1].
  - left. split; [reflexivity|].
    rewrite amount_change_get in H.
    destruct k'; try reflexivity; now elim H.
  - destruct (Key.eq_dec k Key.payee) as [->|N2].
    + right. split; [reflexivity|].
      rewrite payee_change_get in H.
      destruct (truthy v && negb (isEmpty (trim v)));
        [destruct (isEmpty (year r) && isEmpty (month r) && isEmpty (day r))|];
        destruct k'; try reflexivity; solve [now elim H | now elim NE].
    + exfalso. rewrite plain_change, get_set in H by assumption.
      destruct (Key.eqb k' k) eqn:E; [|now elim H].
      apply Key_eqb_eq in E. contradiction.
Qed.

Lemma X1_footprint_witness :
  get (applyFieldChange a_date other_bank Key.payee []) Key.bankName
  <> get other_bank Key.bankName
  /\ cleared Key.bankName = true.
Proof.
  assert (H : get (applyFieldChange a_date other_bank Key.payee [])
                  Key.bankName <> get other_bank Key.bankName)
    by (vm_compute; discriminate).
  split; [exact H|].
  destruct (X1_footprint a_date other_bank Key.payee Key.bankName [] H)
    as [E|[[E _]|[_ E]]]; [discriminate E|discriminate E|exact E].
Defined.

(** X2: a value the amount test rejects, typed after a valid one, is written
    into the amount in digits while the amount in words still transcribes
    the earlier value. *)
Theorem X2_stale_words (now1 now2 : Date) (r : PaymentFormData)
        (v1 v2 : jsstring) :
  validAmount v1 = true -> isNaN (parseFloat v2) = true -> v2 <> [] ->
  let r' := applyFieldChange now2
              (applyFieldChange now1 r Key.amountNumeric v1)
              Key.amountNumeric v2 in
  amountNumeric r' = v2
  /\ amountChinese r' = digitUppercase (ANum (parseFloat v1)).
Proof.
  intros H1 H2 H3 r'. unfold r'.
  rewrite rejected_amount_keeps_words, valid_amount_change by assumption.
  split; reflexivity.
Qed.

Lemma X2_stale_words_witness :
  validAmount (utf16 "5") = true
  /\ isNaN (parseFloat (utf16 "five")) = true
  /\ utf16 "five" <> []
  /\ amountNumeric
       (applyFieldChange a_date typed_5 Key.amountNumeric (utf16 "five"))
     = utf16 "five"
  /\ amountChinese
       (applyFieldChange a_date typed_5 Key.amountNumeric (utf16 "five"))
     = utf16 "伍元整".
Proof.
  assert (H1 : validAmount (utf16 "5") = true) by reflexivity.
  assert (H2 : isNaN (parseFloat (utf16 "five")) = true) by reflexivity.
  assert (H3 : utf16 "five" <> []) by (vm_compute; discriminate).
  split; [exact H1|]. split; [exact H2|]. split; [exact H3|].
  destruct (X2_stale_words a_date a_date initialFormData
              (utf16 "5") (utf16 "five") H1 H2 H3) as [Ha Hb].
  split; [exact Ha|]. exact (eq_trans Hb eq_refl).
Defined.

(** X3: an edit of the amount in digits that passes the amount test, or that
    empties the field, overrides whatever was typed into the amount in
    words before. *)
Theorem X3_amount_overrides_words (now1 now2 : Date) (r : PaymentFormData)
        (w v : jsstring) :
  validAmount v = true \/ v = [] ->
  applyFieldChange now2 (applyFieldChange now1 r Key.amountChinese w)
                   Key.amountNumeric v
  = applyFieldChange now2 r Key.amountNumeric v.
Proof.
  intros H. apply record_ext. intros k. rewrite !amount_change_get.
  destruct H as [H| ->].
  - rewrite H. now destruct k.
  - now destruct k.
Qed.

Lemma X3_amount_overrides_words_witness :
  validAmount (utf16 "5") = true
  /\ applyFieldChange a_date words_only Key.amountNumeric (utf16 "5")
     = typed_5.
Proof.
  assert (H : validAmount (utf16 "5") = true) by reflexivity.
  split; [exact H|].
  exact (X3_amount_overrides_words a_date a_date initialFormData
           (utf16 "x") (utf16 "5") (or_introl H)).
Defined.

(** X4: edits of two different fields commute, as long as neither is the
    payee and they are not the two amount fields. *)
Theorem X4_edits_commute (now1 now2 : Date) (r : PaymentFormData)
        (k1 k2 : Key.t) (v1 v2 : jsstring) :
  k1 <> k2 -> k1 <> Key.payee -> k2 <> Key.payee ->
  ~ (k1 = Key.amountNumeric /\ k2 = Key.amountChinese) ->
  ~ (k1 = Key.amountChinese /\ k2 = Key.amountNumeric) ->
  applyFieldChange now2 (applyFieldChange now1 r k1 v1) k2 v2
  = applyFieldChange now1 (applyFieldChange now2 r k2 v2) k1 v1.
Proof.
  intros Hne H1 H2 H3 H4. apply record_ext. intros k.
  destruct (Key.eq_dec k1 Key.amountNumeric) as [->|N1];
    [|destruct (Key.eq_dec k2 Key.amountNumeric) as [->|N2]].
  - rewrite (plain_change now2 r k2 v2),
      (plain_change now2 (applyFieldChange now1 r Key.amountNumeric v1) k2 v2)
      by (assumption || congruence).
    rewrite get_set, !amount_change_get, !get_set.
    destruct k2; try (now elim Hne); try (now elim H2);
      try (now elim H3); now destruct k.
  - rewrite (plain_change now1 r k1 v1),
      (plain_change now1 (applyFieldChange now2 r Key.amountNumeric v2) k1 v1)
      by assumption.
    rewrite get_set, !amount_change_get, !get_set.
    destruct k1; try (now elim Hne); try (now elim H1);
      try (now elim H4); now destruct k.
  - rewrite !plain_change, !get_set by assumption.
    destruct (Key.eqb k k2) eqn:E2, (Key.eqb k k1) eqn:E1; try reflexivity.
    apply Key_eqb_eq in E1, E2. congruence.
Qed.

Lemma X4_edits_commute_witness :
  applyFieldChange a_date
    (applyFieldChange a_date getDefaults Key.amountNumeric (utf16 "5"))
    Key.reason (utf16 "rent")
  = applyFieldChange a_date
      (applyFieldChange a_date getDefaults Key.reason (utf16 "rent"))
      Key.amountNumeric (utf16 "5").
Proof.
  apply (X4_edits_commute a_date a_date getDefaults
           Key.amountNumeric Key.reason (utf16 "5") (utf16 "rent"));
    try discriminate; intros [E1 E2]; discriminate.
Defined.

Lemma Z_toString_nonempty (z : Z) : isEmpty (Z_toString z) = false.
Proof.
  unfold Z_toString.
  destruct (Z.to_int z) as [d|d]; [destruct d|]; reflexivity.
Qed.

Lemma nonblank_payee_dates (now : Date) (r : PaymentFormData)
      (v : jsstring) :
  trim v <> [] ->
  dates (applyFieldChange now r Key.payee v) =
  if isEmpty (year r) && isEmpty (month r) && isEmpty (day r)
  then today now else dates r.
Proof.
  intros Hv. apply trim_nonempty in Hv.
  rewrite dates_get, !payee_change_get, Hv.
  now destruct (isEmpty (year r) && isEmpty (month r) && isEmpty (day r)).
Qed.

(** X5: the date is stamped once.  When a payee that is not blank is typed
    into a record without a date, and a payee that is not blank is typed
    again at a later time, the date fields still hold the date of the first
    edit. *)
Theorem X5_date_stamped_once (now1 now2 : Date) (r : PaymentFormData)
        (v1 v2 : jsstring) :
  trim v1 <> [] -> trim v2 <> [] -> dates r = ([], [], []) ->
  dates (applyFieldChange now2 (applyFieldChange now1 r Key.payee v1)
                          Key.payee v2)
  = today now1.
Proof.
  intros H1 H2 Hd.
  assert (E1 : dates (applyFieldChange now1 r Key.payee v1) = today now1).
  { rewrite nonblank_payee_dates by exact H1.
    apply dates_empty in Hd. now rewrite Hd. }
  rewrite nonblank_payee_dates by exact H2.
  injection E1 as Ey Em Ed. rewrite Ey, Z_toString_nonempty. cbn [andb].
  unfold dates. now rewrite Ey, Em, Ed.
Qed.

Lemma X5_date_stamped_once_witness :
  trim (utf16 "ACME") <> [] /\ trim (utf16 "ACME Ltd") <> []
  /\ dates getDefaults = ([], [], [])
  /\ dates (applyFieldChange
              {| getFullYear := 2027; getMonth := 0; getDate := 15 |}
              (applyFieldChange a_date getDefaults Key.payee (utf16 "ACME"))
              Key.payee (utf16 "ACME Ltd"))
     = (utf16 "2026", utf16 "11", utf16 "3").
Proof.
  assert (H1 : trim (utf16 "ACME") <> []) by (vm_compute; discriminate).
  assert (H2 : trim (utf16 "ACME Ltd") <> []) by (vm_compute; discriminate).
  split; [exact H1|]. split; [exact H2|]. split; [reflexivity|].
  exact (X5_date_stamped_once a_date
           {| getFullYear := 2027; getMonth := 0; getDate := 15 |}
           getDefaults (utf16 "ACME") (utf16 "ACME Ltd") H1 H2 eq_refl).
Defined.

(* ================================================================= *)
(** ** More on the selection of a lookup entry *)

Lemma select_get (now : Date) (r : PaymentFormData) (p : PayeeInfo)
      (k : Key.t) :
  get (applySelectPayee now r p) k =
  match k with
  | Key.payee => 收款单位 p
  | Key.bankAccount => 银行账号 p
  | Key.bankName => 开户行 p
  | Key.year => Z_toString (getFullYear now)
  | Key.month => Z_toString (getMonth now + 1)
  | Key.day => Z_toString (getDate now)
  | _ => get r k
  end.
Proof.
  unfold applySelectPayee. rewrite !or_empty_id. now destruct k.
Qed.

(** X6: the last selection wins.  A selection made after another one leaves
    the record the later selection alone would have left. *)
Theorem X6_last_selection_wins (now1 now2 : Date) (r : PaymentFormData)
        (p1 p2 : PayeeInfo) :
  applySelectPayee now2 (applySelectPayee now1 r p1) p2
  = applySelectPayee now2 r p2.
Proof.
  apply record_ext. intros k. rewrite !select_get. now destruct k.
Qed.

(** X7: typing before selecting leaves no trace.  A selection made after a
    payee that is not blank was typed gives the record the selection alone
    would have given. *)
Theorem X7_select_after_typing (now1 now2 : Date) (r : PaymentFormData)
        (v : jsstring) (p : PayeeInfo) :
  trim v <> [] ->
  applySelectPayee now2 (applyFieldChange now1 r Key.payee v) p
  = applySelectPayee now2 r p.
Proof.
  intros Hv. apply trim_nonempty in Hv.
  apply record_ext. intros k. rewrite !select_get.
  destruct k; try reflexivity; rewrite payee_change_get, Hv;
    now destruct (isEmpty (year r) && isEmpty (month r) && isEmpty (day r)).
Qed.

Lemma X7_select_after_typing_witness :
  trim (utf16 "AC") <> []
  /\ applySelectPayee a_date
       (applyFieldChange a_date getDefaults Key.payee (utf16 "AC")) a_payee
     = applySelectPayee a_date getDefaults a_payee.
Proof.
  assert (H : trim (utf16 "AC") <> []) by (vm_compute; discriminate).
  split; [exact H|].
  exact (X7_select_after_typing a_date a_date getDefaults
           (utf16 "AC") a_payee H).
Defined.

(** X8: a blank payee typed before a selection does leave a trace: the
    amounts, the reason and the attachment count it emptied stay empty. *)
Theorem X8_select_after_blank (now1 now2 : Date) (r : PaymentFormData)
        (v : jsstring) (p : PayeeInfo) :
  blank v ->
  let r' := applySelectPayee now2 (applyFieldChange now1 r Key.payee v) p in
  amountNumeric r' = [] /\ amountChinese r' = []
  /\ reason r' = [] /\ attachments r' = []
  /\ payee r' = 收款单位 p /\ bankAccount r' = 银行账号 p
  /\ bankName r' = 开户行 p /\ dates r' = today now2.
Proof.
  intros Hb r'.
  assert (G : forall k, get r' k =
    match k with
    | Key.payee => 收款单位 p
    | Key.bankAccount => 银行账号 p
    | Key.bankName => 开户行 p
    | Key.year => Z_toString (getFullYear now2)
    | Key.month => Z_toString (getMonth now2 + 1)
    | Key.day => Z_toString (getDate now2)
    | _ => if cleared k then [] else get r k
    end).
  { intros k. unfold r'. rewrite select_get.
    destruct k; try reflexivity;
      rewrite payee_change_get, (trim_blank v Hb); cbn [isEmpty negb];
      now rewrite andb_false_r. }
  repeat split;
    [ exact (G Key.amountNumeric) | exact (G Key.amountChinese)
    | exact (G Key.reason) | exact (G Key.attachments)
    | exact (G Key.payee) | exact (G Key.bankAccount)
    | exact (G Key.bankName) ].
Qed.

Lemma X8_select_after_blank_witness :
  blank (utf16 " ")
  /\ amountNumeric
       (applySelectPayee a_date
          (applyFieldChange a_date typed_5 Key.payee (utf16 " ")) a_payee)
     = []
  /\ amountNumeric (applySelectPayee a_date typed_5 a_payee) = utf16 "5".
Proof.
  assert (H : blank (utf16 " ")) by (repeat constructor).
  split; [exact H|]. split; [|reflexivity].
  exact (proj1 (X8_select_after_blank a_date a_date typed_5
                  (utf16 " ") a_payee H)).
Defined.

(* ================================================================= *)
(** ** More on the lookup table *)

Lemma known_iff (payeeDb : list PayeeInfo) (r : PaymentFormData) :
  known payeeDb r = true
  <-> In (payee r, bankAccount r) (map key_of payeeDb).
Proof.
  unfold known. rewrite existsb_exists, in_map_iff. split.
  - intros (p & Hin & H). apply andb_prop in H. destruct H as [H1 H2].
    apply Str_eqb_eq in H1, H2. exists p. split; [|exact Hin].
    unfold key_of. now rewrite H1, H2.
  - intros (p & Hk & Hin). injection Hk as H1 H2. exists p.
    split; [exact Hin|]. now rewrite H1, H2, !Str_eqb_refl.
Qed.

Lemma filled_iff (r : PaymentFormData) :
  filled r = true <-> complete (entry_of r).
Proof.
  unfold filled, complete, entry_of, truthy. cbn.
  destruct (payee r), (bankAccount r), (bankName r); cbn;
    (split; [intros H; try discriminate H; repeat split; discriminate
            |intros (H1 & H2 & H3); try reflexivity; congruence]).
Qed.

(** [checkAndSavePayee] by its two tests. *)
Lemma checkAndSavePayee_cases (payeeDb : list PayeeInfo)
      (r : PaymentFormData) :
  checkAndSavePayee payeeDb r =
  if filled r && negb (known payeeDb r)
  then (payeeDb ++ [entry_of r], true) else (payeeDb, false).
Proof.
  unfold checkAndSavePayee. fold (filled r). fold (known payeeDb r).
  fold (entry_of r).
  destruct (filled r); [|reflexivity].
  now destruct (known payeeDb r).
Qed.

(** X9: selecting an entry of the table and exporting adds nothing: after
    [applySelectPayee] with an entry the table holds, [checkAndSavePayee]
    leaves the table as it is, whatever the entry and the record are. *)
Theorem X9_select_then_save (now : Date) (payeeDb : list PayeeInfo)
        (r : PaymentFormData) (p : PayeeInfo) :
  In p payeeDb ->
  checkAndSavePayee payeeDb (applySelectPayee now r p) = (payeeDb, false).
Proof.
  intros Hin. rewrite checkAndSavePayee_cases.
  replace (known payeeDb (applySelectPayee now r p)) with true;
    [now rewrite andb_false_r|].
  symmetry. apply known_iff.
  replace (payee (applySelectPayee now r p)) with (收款单位 p)
    by (symmetry; apply (select_get now r p Key.payee)).
  replace (bankAccount (applySelectPayee now r p)) with (银行账号 p)
    by (symmetry; apply (select_get now r p Key.bankAccount)).
  apply in_map_iff. exists p. split; [reflexivity|exact Hin].
Qed.

Lemma X9_select_then_save_witness :
  In a_payee [a_payee]
  /\ checkAndSavePayee [a_payee] (applySelectPayee a_date typed_5 a_payee)
     = ([a_payee], false).
Proof.
  assert (H : In a_payee [a_payee]) by (now left).
  split; [exact H|].
  exact (X9_select_then_save a_date [a_payee] typed_5 a_payee H).
Defined.

(** X10: saving twice saves once.  Whatever the first call of
    [checkAndSavePayee] did, a second call on the table it left and the same
    record changes nothing and reports nothing saved. *)
Theorem X10_save_twice (payeeDb : list PayeeInfo) (r : PaymentFormData) :
  checkAndSavePayee (fst (checkAndSavePayee payeeDb r)) r
  = (fst (checkAndSavePayee payeeDb r), false).
Proof.
  rewrite (checkAndSavePayee_cases payeeDb r).
  destruct (filled r) eqn:F; cbn [andb].
  - destruct (known payeeDb r) eqn:K; cbn [negb fst].
    + now rewrite checkAndSavePayee_cases, F, K.
    + rewrite checkAndSavePayee_cases, F.
      replace (known (payeeDb ++ [entry_of r]) r) with true; [reflexivity|].
      symmetry. apply known_iff. rewrite map_app. apply in_or_app. right.
      now left.
  - cbn [fst]. now rewrite checkAndSavePayee_cases, F.
Qed.

Lemma checkAndSavePayee_keeps_ok (payeeDb : list PayeeInfo)
      (r : PaymentFormData) :
  table_ok payeeDb -> table_ok (fst (checkAndSavePayee payeeDb r)).
Proof.
  intros [Hn Hc]. rewrite checkAndSavePayee_cases.
  destruct (filled r) eqn:F; [|now split].
  destruct (known payeeDb r) eqn:K; [now split|].
  cbn [andb negb fst]. split.
  - rewrite map_app. apply NoDup_app; [exact Hn|repeat constructor; easy|].
    intros k Hk [<-|[]].
    apply (proj2 (known_iff payeeDb r)) in Hk. congruence.
  - apply Forall_app. split; [exact Hc|].
    constructor; [now apply filled_iff|constructor].
Qed.

Lemma savePayees_cases (payeeDb : list PayeeInfo) (fs : forms) :
  savePayees payeeDb fs =
  (if snd (checkAndSavePayee payeeDb (snd fs))
   then fst (checkAndSavePayee payeeDb (snd fs))
   else fst (checkAndSavePayee payeeDb (fst fs)),
   snd (checkAndSavePayee payeeDb (fst fs))
   || snd (checkAndSavePayee payeeDb (snd fs))).
Proof.
  unfold savePayees.
  destruct (checkAndSavePayee payeeDb (fst fs)) as [db1 b1].
  now destruct (checkAndSavePayee payeeDb (snd fs)) as [db2 b2].
Qed.

(** X11: a table built by exports alone, from the empty table, holds no
    identity (payee name, bank account) twice and no entry with an empty
    field. *)
Theorem X11_saved_table_ok (payeeDb : list PayeeInfo) :
  saved_table payeeDb -> table_ok payeeDb.
Proof.
  induction 1 as [|db fs _ IH].
  - split; constructor.
  - rewrite savePayees_cases. cbn [fst].
    destruct (snd (checkAndSavePayee db (snd fs)));
      now apply checkAndSavePayee_keeps_ok.
Qed.

Lemma X11_saved_table_ok_witness :
  saved_table [a_payee] /\ table_ok [a_payee].
Proof.
  assert (H : saved_table [a_payee])
    by exact (saved_export [] (form_acme, getDefaults) saved_empty).
  split; [exact H|]. exact (X11_saved_table_ok [a_payee] H).
Defined.

(** X12: an export adds one entry at most, at the end, and removes none:
    the table after [savePayees] is the table before, or the table before
    with the entry of one of the two copies appended; the flag tells which
    of the two happened. *)
Theorem X12_export_adds_at_most_one (payeeDb : list PayeeInfo) (fs : forms) :
  (savePayees payeeDb fs = (payeeDb, false))
  \/ (savePayees payeeDb fs = (payeeDb ++ [entry_of (fst fs)], true))
  \/ (savePayees payeeDb fs = (payeeDb ++ [entry_of (snd fs)], true)).
Proof.
  rewrite savePayees_cases, !checkAndSavePayee_cases.
  destruct (filled (snd fs) && negb (known payeeDb (snd fs)));
    destruct (filled (fst fs) && negb (known payeeDb (fst fs))); cbn; tauto.
Qed.

(** X13: when both copies hold a complete payee that the table does not
    know, the export records the payee of the second copy only; the payee of
    the first copy, if it is another one, is not in the table afterwards
    although the export reports a save. *)
Theorem X13_export_loses_first (payeeDb : list PayeeInfo) (fs : forms) :
  filled (fst fs) = true -> filled (snd fs) = true ->
  known payeeDb (fst fs) = false -> known payeeDb (snd fs) = false ->
  savePayees payeeDb fs = (payeeDb ++ [entry_of (snd fs)], true)
  /\ (key_of (entry_of (fst fs)) <> key_of (entry_of (snd fs)) ->
      known (fst (savePayees payeeDb fs)) (fst fs) = false).
Proof.
  intros F1 F2 K1 K2.
  assert (E : savePayees payeeDb fs = (payeeDb ++ [entry_of (snd fs)], true)).
  { rewrite savePayees_cases, !checkAndSavePayee_cases, F1, F2, K1, K2.
    reflexivity. }
  split; [exact E|]. intros Hk. rewrite E. cbn [fst].
  destruct (known (payeeDb ++ [entry_of (snd fs)]) (fst fs)) eqn:K;
    [|reflexivity].
  apply known_iff in K. rewrite map_app in K. apply in_app_or in K.
  destruct K as [K|[K|[]]].
  - apply known_iff in K. congruence.
  - now elim Hk.
Qed.

Lemma X13_export_loses_first_witness :
  savePayees [] (form_acme, form_bolt) = ([entry_of form_bolt], true)
  /\ known [entry_of form_bolt] form_acme = false.
Proof.
  destruct (X13_export_loses_first [] (form_acme, form_bolt)
              eq_refl eq_refl eq_refl eq_refl) as [E K].
  split; [exact E|].
  assert (N : key_of (entry_of form_acme) <> key_of (entry_of form_bolt))
    by (vm_compute; discriminate).
  specialize (K N). rewrite E in K. exact K.
Defined.

(* ================================================================= *)
(** ** The two copies *)


(** X15: the file name of the export does not tell 11 January from
    1 November: the date fields are joined as they are, without padding, so
    records stamped by a selection on these two days of a year, with the
    same payee, get the same name. *)
Theorem X15_file_name_collides (y : Z) (r1 r2 second1 second2 : PaymentFormData)
        (p : PayeeInfo) :
  downloadName
    (applySelectPayee {| getFullYear := y; getMonth := 0; getDate := 11 |}
                      r1 p, second1)
  = downloadName
      (applySelectPayee {| getFullYear := y; getMonth := 10; getDate := 1 |}
                        r2 p, second2).
Proof.
  unfold downloadName, applySelectPayee. rewrite !or_empty_id.
  cbn [fst]. reflexivity.
Qed.

(* ================================================================= *)
(** ** The dropdown *)

Lemma startsWith_refl (s : jsstring) : Dropdown.startsWith s s = true.
Proof. induction s as [|a s IH]; cbn; [reflexivity|]. now rewrite N.eqb_refl. Qed.

Lemma includes_refl (s : jsstring) : Dropdown.includes s s = true.
Proof. destruct s; cbn; [reflexivity|]. now rewrite N.eqb_refl, startsWith_refl. Qed.

Lemma nonempty_false (l : list PayeeInfo) :
  Dropdown.nonempty l = true -> l <> [].
Proof. destruct l; [discriminate|discriminate]. Qed.

(** X16: the dropdown never opens empty.  In every state reached from the
    initial one by typing, focusing and closing, with any table and any
    text, an open dropdown has at least one option. *)
Theorem X16_dropdown_not_empty (toLowerCase : jsstring -> jsstring)
        (st : Dropdown.state) :
  Dropdown.reachable toLowerCase st ->
  Dropdown.showDropdown st = true -> Dropdown.filteredOptions st <> [].
Proof.
  induction 1 as [|st st' _ IH Hs]; [discriminate|].
  destruct Hs as [opts v st|opts d st|st].
  - unfold Dropdown.handlePayeeChange.
    destruct (truthy v && Dropdown.nonempty opts); cbn;
      [apply nonempty_false|discriminate].
  - unfold Dropdown.handlePayeeFocus.
    destruct (truthy (payee d) && Dropdown.nonempty opts); cbn;
      [apply nonempty_false|exact IH].
  - discriminate.
Qed.

Lemma X16_dropdown_not_empty_witness :
  let st := Dropdown.handlePayeeChange (fun s => s) [a_payee] (utf16 "AC")
              Dropdown.initial in
  Dropdown.reachable (fun s => s) st
  /\ Dropdown.showDropdown st = true
  /\ Dropdown.filteredOptions st <> [].
Proof.
  intros st.
  assert (R : Dropdown.reachable (fun s => s) st).
  { eapply Dropdown.reach_next;
      [apply Dropdown.reach_initial|apply Dropdown.step_change]. }
  assert (S : Dropdown.showDropdown st = true) by reflexivity.
  split; [exact R|]. split; [exact S|].
  exact (X16_dropdown_not_empty (fun s => s) st R S).
Defined.

(** X17: a payee of the table is found by its name.  When the full name of
    an entry is typed, the dropdown opens and lists that entry, whatever the
    case mapping does. *)
Theorem X17_name_is_offered (toLowerCase : jsstring -> jsstring)
        (payeeOptions : list PayeeInfo) (p : PayeeInfo)
        (st : Dropdown.state) :
  In p payeeOptions -> 收款单位 p <> [] ->
  let st' := Dropdown.handlePayeeChange toLowerCase payeeOptions
                                        (收款单位 p) st in
  Dropdown.showDropdown st' = true /\ In p (Dropdown.filteredOptions st').
Proof.
  intros Hin Hn st'.
  assert (T : truthy (收款单位 p) = true) by (now destruct (收款单位 p)).
  assert (M : In p (Dropdown.matches toLowerCase payeeOptions (收款单位 p))).
  { apply filter_In. split; [exact Hin|]. now rewrite T, includes_refl. }
  unfold st', Dropdown.handlePayeeChange. rewrite T.
  destruct payeeOptions as [|q opts]; [contradiction|]. cbn [andb Dropdown.nonempty].
  cbn [Dropdown.showDropdown Dropdown.filteredOptions]. split; [|exact M].
  now destruct (Dropdown.matches toLowerCase (q :: opts) (收款单位 p)).
Qed.

Lemma X17_name_is_offered_witness :
  In a_payee [a_payee] /\ 收款单位 a_payee <> []
  /\ In a_payee
       (Dropdown.filteredOptions
          (Dropdown.handlePayeeChange (fun s => s) [a_payee]
             (收款单位 a_payee) Dropdown.initial)).
Proof.
  assert (H1 : In a_payee [a_payee]) by (now left).
  assert (H2 : 收款单位 a_payee <> []) by (vm_compute; discriminate).
  split; [exact H1|]. split; [exact H2|].
  exact (proj2 (X17_name_is_offered (fun s => s) [a_payee] a_payee
                  Dropdown.initial H1 H2)).
Defined.

(** X18: choosing from the open dropdown never makes a new table entry.
    An option listed by the dropdown that typing has opened is an entry of
    the table, so after [handleOptionClick] with the selection of [App] the
    export leaves the table as it is. *)
Theorem X18_offered_option_is_known (toLowerCase : jsstring -> jsstring)
        (now : Date) (payeeOptions : list PayeeInfo) (value : jsstring)
        (st : Dropdown.state) (p : PayeeInfo) (r : PaymentFormData) :
  let st' := Dropdown.handlePayeeChange toLowerCase payeeOptions value st in
  Dropdown.showDropdown st' = true -> In p (Dropdown.filteredOptions st') ->
  In p payeeOptions
  /\ checkAndSavePayee payeeOptions (Dropdown.handleOptionClick true now p r)
     = (payeeOptions, false).
Proof.
  intros st' Hs Hin.
  assert (I : In p payeeOptions).
  { unfold st', Dropdown.handlePayeeChange in Hs, Hin.
    destruct (truthy value && Dropdown.nonempty payeeOptions);
      [|discriminate Hs].
    cbn in Hin. now apply filter_In in Hin. }
  split; [exact I|]. cbn [Dropdown.handleOptionClick].
  rewrite checkAndSavePayee_cases.
  replace (known payeeOptions (applySelectPayee now r p)) with true;
    [now rewrite andb_false_r|].
  symmetry. apply known_iff.
  replace (payee (applySelectPayee now r p)) with (收款单位 p)
    by (symmetry; apply (select_get now r p Key.payee)).
  replace (bankAccount (applySelectPayee now r p)) with (银行账号 p)
    by (symmetry; apply (select_get now r p Key.bankAccount)).
  apply in_map_iff. exists p. split; [reflexivity|exact I].
Qed.

Lemma X18_offered_option_is_known_witness :
  Dropdown.showDropdown
    (Dropdown.handlePayeeChange (fun s => s) [a_payee] (utf16 "AC")
       Dropdown.initial) = true
  /\ In a_payee
       (Dropdown.filteredOptions
          (Dropdown.handlePayeeChange (fun s => s) [a_payee] (utf16 "AC")
             Dropdown.initial))
  /\ checkAndSavePayee [a_payee]
       (Dropdown.handleOptionClick true a_date a_payee typed_5)
     = ([a_payee], false).
Proof.
  assert (H1 : Dropdown.showDropdown
                 (Dropdown.handlePayeeChange (fun s => s) [a_payee]
                    (utf16 "AC") Dropdown.initial) = true) by reflexivity.
  assert (H2 : In a_payee
                 (Dropdown.filteredOptions
                    (Dropdown.handlePayeeChange (fun s => s) [a_payee]
                       (utf16 "AC") Dropdown.initial))) by (now left).
  split; [exact H1|]. split; [exact H2|].
  exact (proj2 (X18_offered_option_is_known (fun s => s) a_date [a_payee]
                  (utf16 "AC") Dropdown.initial a_payee typed_5 H1 H2)).
Defined.

(** X19: without the selection handler, [handleOptionClick] only types the
    name: the bank account and the bank name of the record stay as they
    were, and the entry's are not written, as long as the name is not
    blank. *)
Theorem X19_click_without_select (now : Date) (p : PayeeInfo)
        (r : PaymentFormData) :
  trim (收款单位 p) <> [] ->
  let r' := Dropdown.handleOptionClick false now p r in
  payee r' = 收款单位 p /\ bankAccount r' = bankAccount r
  /\ bankName r' = bankName r.
Proof.
  intros Hv r'. apply trim_nonempty in Hv.
  pose proof (payee_change_get now r (收款单位 p) Key.payee) as G1.
  pose proof (payee_change_get now r (收款单位 p) Key.bankAccount) as G2.
  pose proof (payee_change_get now r (收款单位 p) Key.bankName) as G3.
  rewrite Hv in G1, G2, G3.
  destruct (isEmpty (year r) && isEmpty (month r) && isEmpty (day r));
    (split; [exact G1|split; [exact G2|exact G3]]).
Qed.

Lemma X19_click_without_select_witness :
  trim (收款单位 a_payee) <> []
  /\ bankAccount (Dropdown.handleOptionClick false a_date a_payee getDefaults)
     = [].
Proof.
  assert (H : trim (收款单位 a_payee) <> []) by (vm_compute; discriminate).
  split; [exact H|].
  exact (proj1 (proj2 (X19_click_without_select a_date a_payee
                         getDefaults H))).
Defined.

(* ================================================================= *)
(** ** More on the transcription *)

(** X20: the sign is not transcribed: a number and its opposite have the
    same transcription. *)
Theorem X20_sign_ignored (x : number) :
  digitUppercase (ANum (SFopp x)) = digitUppercase (ANum x).
Proof.
  unfold digitUppercase, Number.
  replace (Math_abs (SFopp x)) with (Math_abs x); [reflexivity|].
  now destruct x.
Qed.

(** X21: the amount test lets infinities through.  A value that
    [parseFloat] reads as an infinity is written into the amount in digits,
    and the amount in words becomes a fixed text made of "undefined" and
    unit characters, which is no transcription. *)
Theorem X21_infinite_amount (now : Date) (r : PaymentFormData) (v : jsstring)
        (s : bool) :
  parseFloat v = S754_infinity s ->
  let r' := applyFieldChange now r Key.amountNumeric v in
  amountNumeric r' = v /\ amountChinese r' = infinity_words
  /\ well_formed (amountChinese r') = false.
Proof.
  intros Hv r'.
  assert (V : validAmount v = true).
  { unfold validAmount. rewrite Hv, Str_eqb_nil.
    destruct v; [discriminate Hv|reflexivity]. }
  assert (W : amountChinese r' = infinity_words).
  { unfold r'. rewrite valid_amount_change by exact V.
    cbn [amountChinese set tabulate Key.eqb get]. rewrite Hv.
    destruct s; vm_compute; reflexivity. }
  split; [|split; [exact W|]].
  - unfold r'. now rewrite valid_amount_change by exact V.
  - rewrite W. vm_compute. reflexivity.
Qed.

Lemma X21_infinite_amount_witness :
  parseFloat (utf16 "1e999") = S754_infinity false
  /\ amountChinese
       (applyFieldChange a_date getDefaults Key.amountNumeric (utf16 "1e999"))
     = infinity_words.
Proof.
  assert (H : parseFloat (utf16 "1e999") = S754_infinity false)
    by (vm_compute; reflexivity).
  split; [exact H|].
  exact (proj1 (proj2 (X21_infinite_amount a_date getDefaults
                         (utf16 "1e999") false H))).
Defined.

Lemma range_In (n : nat) :
  forall lo z, (lo <= z < lo + Z.of_nat n)%Z -> In z (range n lo).
Proof.
  induction n as [|n IH]; intros lo z H; [lia|].
  cbn [range]. destruct (Z.eq_dec lo z) as [->|N]; [now left|right].
  apply IH. lia.
Qed.

Lemma digit_lists_In (choices : list Z) (ds : list Z) :
  Forall (fun d => In d choices) ds ->
  In ds (digit_lists choices (List.length ds)).
Proof.
  induction 1 as [|d ds Hd _ IH]; [now left|].
  cbn [List.length digit_lists]. apply in_flat_map. exists d.
  split; [exact Hd|]. now apply in_map.
Qed.

Lemma whole_below_1000 : forallb whole_reads_back (range 1000 0) = true.
Proof. vm_compute. reflexivity. Qed.

Lemma whole_binary_9 :
  forallb (fun ds => whole_reads_back (of_digits ds))
          (digit_lists [0; 1]%Z 9) = true.
Proof. vm_compute. reflexivity. Qed.

Lemma cents_below_10_00 : forallb cents_read_back (range 1000 0) = true.
Proof. vm_compute. reflexivity. Qed.

Lemma top_dropped_check :
  forallb (fun k => forallb (top_dropped k) (range 50 0)) (range 9 1) = true.
Proof. vm_compute. reflexivity. Qed.

(** X22: every whole amount from 0 to 999 reads back as itself: the
    transcription denotes the amount, so two of these amounts never share a
    transcription. *)
Theorem X22_whole_round_trip (n : Z) :
  (0 <= n < 1000)%Z ->
  read_amount (digitUppercase (ANum (of_Z n))) = Some (n * 100)%Z.
Proof.
  intros H.
  pose proof (proj1 (forallb_forall _ _) whole_below_1000 n
                    (range_In 1000 0 n H)) as C.
  unfold whole_reads_back in C.
  destruct (read_amount _) as [v|]; [|discriminate C].
  apply Z.eqb_eq in C. now subst.
Qed.

Lemma X22_whole_round_trip_witness :
  (0 <= 105 < 1000)%Z
  /\ digitUppercase (ANum (of_Z 105)) = utf16 "壹佰零伍元整"
  /\ read_amount (digitUppercase (ANum (of_Z 105))) = Some 10500%Z.
Proof.
  assert (H : (0 <= 105 < 1000)%Z) by lia.
  split; [exact H|]. split; [vm_compute; reflexivity|].
  exact (X22_whole_round_trip 105 H).
Defined.

(** X23: every whole amount of nine decimal digits (the leading ones may
    be zero) that are all 0 or 1 reads back as itself: whichever digits of
    the groups are zero, the zero markers and the group units come out so
    that the amount is kept. *)
Theorem X23_zero_patterns (ds : list Z) :
  List.length ds = 9 ->
  forallb (fun d => (d =? 0) || (d =? 1))%Z ds = true ->
  read_amount (digitUppercase (ANum (of_Z (of_digits ds))))
  = Some (of_digits ds * 100)%Z.
Proof.
  intros L F.
  assert (F' : Forall (fun d => In d [0; 1]%Z) ds).
  { apply Forall_forall. intros d Hd.
    apply (proj1 (forallb_forall _ _) F) in Hd.
    apply orb_prop in Hd. destruct Hd as [Hd|Hd]; apply Z.eqb_eq in Hd;
      subst; cbn; tauto. }
  apply digit_lists_In in F'. rewrite L in F'.
  pose proof (proj1 (forallb_forall _ _) whole_binary_9 ds F') as C.
  cbv beta in C. unfold whole_reads_back in C.
  destruct (read_amount _) as [v|]; [|discriminate C].
  apply Z.eqb_eq in C. now subst.
Qed.

Lemma X23_zero_patterns_witness :
  digitUppercase (ANum (of_Z (of_digits [1;0;0;0;1;0;0;1;0]%Z)))
  = utf16 "壹亿零壹万零壹拾元整"
  /\ read_amount
       (digitUppercase (ANum (of_Z (of_digits [1;0;0;0;1;0;0;1;0]%Z))))
     = Some 10001001000%Z.
Proof.
  split; [vm_compute; reflexivity|].
  exact (X23_zero_patterns [1;0;0;0;1;0;0;1;0]%Z eq_refl eq_refl).
Defined.

(** X24: an amount of up to 9.99 given with two decimals never reads back
    as more than it is, and as one 分 less at worst: the digits of the
    decimal part are taken by floor from binary products. *)
Theorem X24_cents_within_one (c : Z) :
  (0 <= c < 1000)%Z ->
  exists v, read_amount (digitUppercase (ANum (of_decimal false c (-2))))
            = Some v
            /\ (c - 1 <= v <= c)%Z.
Proof.
  intros H.
  pose proof (proj1 (forallb_forall _ _) cents_below_10_00 c
                    (range_In 1000 0 c H)) as C.
  unfold cents_read_back in C.
  destruct (read_amount _) as [v|]; [|discriminate C].
  exists v. split; [reflexivity|].
  apply andb_prop in C. destruct C as [C1 C2].
  apply Z.leb_le in C1, C2. lia.
Qed.

Lemma X24_cents_within_one_witness :
  (0 <= 47 < 1000)%Z
  /\ digitUppercase (ANum (of_decimal false 47 (-2))) = utf16 "肆角陆分"
  /\ exists v, read_amount (digitUppercase (ANum (of_decimal false 47 (-2))))
               = Some v
               /\ (47 - 1 <= v <= 47)%Z.
Proof.
  assert (H : (0 <= 47 < 1000)%Z) by lia.
  split; [exact H|]. split; [vm_compute; reflexivity|].
  exact (X24_cents_within_one 47 H).
Defined.

(** X25: what is above twelve digits is dropped: for a whole amount
    k * 10^12 + n, with k from 1 to 9 and n below 50, the transcription
    reads back as n. *)
Theorem X25_top_digits_dropped (k n : Z) :
  (1 <= k <= 9)%Z -> (0 <= n < 50)%Z ->
  read_amount (digitUppercase (ANum (of_Z (k * 10 ^ 12 + n))))
  = Some (n * 100)%Z.
Proof.
  intros Hk Hn.
  pose proof (proj1 (forallb_forall _ _) top_dropped_check k
                    (range_In 9 1 k ltac:(lia))) as C.
  cbv beta in C.
  pose proof (proj1 (forallb_forall _ _) C n
                    (range_In 50 0 n ltac:(lia))) as D.
  unfold top_dropped in D.
  destruct (read_amount _) as [v|]; [|discriminate D].
  apply Z.eqb_eq in D. now subst.
Qed.

Lemma X25_top_digits_dropped_witness :
  (1 <= 3 <= 9)%Z /\ (0 <= 5 < 50)%Z
  /\ digitUppercase (ANum (of_Z (3 * 10 ^ 12 + 5))) = utf16 "零伍元整"
  /\ read_amount (digitUppercase (ANum (of_Z (3 * 10 ^ 12 + 5))))
     = Some 500%Z.
Proof.
  assert (H1 : (1 <= 3 <= 9)%Z) by lia.
  assert (H2 : (0 <= 5 < 50)%Z) by lia.
  split; [exact H1|]. split; [exact H2|]. split; [vm_compute; reflexivity|].
  exact (X25_top_digits_dropped 3 5 H1 H2).
Defined.
